(** * rustly: the Option / Result algebra and the panic primitive

    A shallow embedding of [include/rustly/panic.h], [include/rustly/option.h]
    and [include/rustly/result.h], followed by the properties of the
    combinator surface.

    - a call either returns, throws one of the two standard-library access
      exceptions, or aborts the process after writing to [stderr]: [outcome];
    - a [std::function] may touch whatever it captured, so the combinators
      that take one run in [eff St], state passing over the captured state [St];
    - the payload types are the codes of a universe [Types], because
      [Option<T>::is_some] inspects [T] itself ([std::is_same<T, std::monostate>])
      and [operator==] is selected by [std::equality_comparable_with<T, U>]. *)

From Stdlib Require Import String Ascii List ZArith NArith Bool DecimalString.
From ExtLib Require Import Structures.Monad.
Import ListNotations MonadNotation.
Local Open Scope string_scope.
Local Open Scope monad_scope.

(* ===================================================================== *)
(** ** What a call can do *)
(* ===================================================================== *)

(** [std::optional::value] and [std::get] throw when used on the wrong state. *)
Inductive exception : Type :=
| bad_optional_access
| bad_variant_access.

(** [Aborted m]: [m] was written to [stderr] and [std::abort] ended the
    process; nothing is returned to the caller. *)
Inductive outcome (A : Type) : Type :=
| Returned (a : A)
| Threw (e : exception)
| Aborted (stderr : string).

Arguments Returned {A} a.
Arguments Threw {A} e.
Arguments Aborted {A} stderr.

#[global] Instance Monad_outcome : Monad outcome :=
  {| ret := fun _ a => Returned a;
     bind := fun _ _ c k =>
       match c with
       | Returned a => k a
       | Threw e => Threw e
       | Aborted m => Aborted m
       end |}.

(** A computation that may call closures capturing a state of type [St]. *)
Definition eff (St A : Type) : Type := St -> outcome A * St.

#[global] Instance Monad_eff (St : Type) : Monad (eff St) :=
  {| ret := fun _ a s => (Returned a, s);
     bind := fun _ _ c k s =>
       match c s with
       | (Returned a, s') => k a s'
       | (Threw e, s') => (Threw e, s')
       | (Aborted m, s') => (Aborted m, s')
       end |}.

(** A closure-free step inside [eff]. *)
Definition lift {St A : Type} (c : outcome A) : eff St A := fun s => (c, s).

(* ===================================================================== *)
(** ** panic.h *)
(* ===================================================================== *)

(** A [std::string] may hold NUL bytes; a reader of the C string behind its
    [c_str()] sees the text before the first one. *)
Fixpoint c_str (s : string) : string :=
  match s with
  | EmptyString => EmptyString
  | String c rest =>
    if Ascii.eqb c zero then EmptyString else String c (c_str rest)
  end.

Fixpoint nul_free (s : string) : bool :=
  match s with
  | EmptyString => true
  | String c rest => negb (Ascii.eqb c zero) && nul_free rest
  end.

(** The two fields of [std::source_location] that the panic message uses.
    [file_name()] is a [const char *], a C string: it holds no NUL byte. *)
Record source_location : Type := {
  file_name : string;
  line : N;
  file_name_c_str : nul_free file_name = true
}.

Definition LF : string := String (ascii_of_nat 10) EmptyString.

Definition NUL : string := String zero EmptyString.

(** The arguments the library hands to [std::format]: strings and the
    unsigned line number. *)
Inductive format_arg : Type :=
| arg_string (s : string)
| arg_unsigned (n : N).

Definition formatted (a : format_arg) : string :=
  match a with
  | arg_string s => s
  | arg_unsigned n => NilZero.string_of_uint (N.to_uint n)
  end.

(** [std::format] for format strings whose only replacement field is the
    empty one; each field takes the next argument.  The argument count is
    checked by [std::format_string] at compile time, so running out of
    arguments does not happen in a program that compiles; the field is then
    copied. *)
Fixpoint format (fmt : string) (args : list format_arg) : string :=
  match fmt with
  | EmptyString => EmptyString
  | String c rest =>
    match c, rest, args with
    | "{"%char, String "}"%char rest', a :: args' =>
      formatted a ++ format rest' args'
    | _, _, _ => String c (format rest args)
    end
  end.

(** [__panic_impl(loc, fmt, args...)]: format, [fputs] to [stderr], [abort].
    [std::fputs(m.c_str(), stderr)] writes [m] as a C string. *)
Definition __panic_impl {A : Type} (loc : source_location) (fmt : string)
    (args : list format_arg) : outcome A :=
  let m := format ("panicked at {}:{}" ++ LF ++ "{}" ++ LF)
             [arg_string (file_name loc); arg_unsigned (line loc);
              arg_string (format fmt args)] in
  Aborted (c_str m).

(** The [panic(...)] macro with no message: the default format string. *)
Definition panic {A : Type} (loc : source_location) : outcome A :=
  __panic_impl loc "explicit panic" [].

(* ===================================================================== *)
(** ** The standard-library containers the two classes derive from *)
(* ===================================================================== *)

(** [std::optional<A>] *)
Inductive optional (A : Type) : Type :=
| nullopt
| engaged (a : A).

Arguments nullopt {A}.
Arguments engaged {A} a.

Definition has_value {A : Type} (o : optional A) : bool :=
  match o with
  | nullopt => false
  | engaged _ => true
  end.

Definition value {A : Type} (o : optional A) : outcome A :=
  match o with
  | nullopt => Threw bad_optional_access
  | engaged a => Returned a
  end.

(** [std::variant<A, B>], built with [std::in_place_index].  Payload values
    are copied without throwing, so the valueless state does not arise. *)
Inductive variant (A B : Type) : Type :=
| in_place_index_0 (a : A)
| in_place_index_1 (b : B).

Arguments in_place_index_0 {A B} a.
Arguments in_place_index_1 {A B} b.

Definition index {A B : Type} (v : variant A B) : N :=
  match v with
  | in_place_index_0 _ => 0%N
  | in_place_index_1 _ => 1%N
  end.

Definition get_0 {A B : Type} (v : variant A B) : outcome A :=
  match v with
  | in_place_index_0 a => Returned a
  | in_place_index_1 _ => Threw bad_variant_access
  end.

Definition get_1 {A B : Type} (v : variant A B) : outcome B :=
  match v with
  | in_place_index_0 _ => Threw bad_variant_access
  | in_place_index_1 b => Returned b
  end.

(* ===================================================================== *)
(** ** namespace rustly *)
(* ===================================================================== *)

Module rustly.

(** The payload types a program instantiates the templates with.
    [val T] are the values of type [T]; [equality_comparable_with T U] is the
    concept of that name and [payload_eq T U] the payloads' own [==], used
    only where the concept holds. *)
Class Types : Type := {
  ty : Type;
  ty_eq_dec : forall a b : ty, {a = b} + {a <> b};
  monostate : ty;
  val : ty -> Type;
  equality_comparable_with : ty -> ty -> bool;
  payload_eq : forall T U : ty, val T -> val U -> bool
}.

(** [std::is_same<A, B>::value] *)
Definition is_same `{Types} (a b : ty) : bool :=
  if ty_eq_dec a b then true else false.

(** display.h: the concept [ToString<T>], with [std::to_string] as its
    method. *)
Class ToString `{Types} (T : ty) : Type :=
  to_string : val T -> string.

(** [class Option : private std::optional<T>] *)
Definition Option `{Types} (T : ty) : Type := optional (val T).

(** [class Result : private std::variant<T, E>]; its one constructor takes
    the variant. *)
Definition Result `{Types} (T E : ty) : Type := variant (val T) (val E).

(** [Result<T, E>(x)] with [x] a [T] or an [E]: the argument is converted by
    [std::variant]'s converting constructor, which selects the alternative
    by the argument's type.  With [T] and [E] the same type the selection is
    ambiguous and the expression does not compile, hence [distinct]. *)
Definition Result_of_T `{Types} {T E : ty} (distinct : is_same T E = false)
    (t : val T) : Result T E :=
  in_place_index_0 t.

Definition Result_of_E `{Types} {T E : ty} (distinct : is_same T E = false)
    (e : val E) : Result T E :=
  in_place_index_1 e.

(** [std::convertible_to<T, R>], with the cast [(R)t] as its method. *)
Class ConvertibleTo `{Types} (T R : ty) : Type :=
  convert : val T -> val R.

(** [std::default_initializable<T>], with [T{}] as its method. *)
Class DefaultInitializable `{Types} (T : ty) : Type :=
  value_initialized : val T.

(* --------------------------------------------------------------------- *)
(** *** option.h *)
(* --------------------------------------------------------------------- *)

Module Option.
Section Methods.
Context {TY : Types}.

(** [Option()] *)
Definition empty {T : ty} : Option T := nullopt.

(** [Option(T t)] *)
Definition holding {T : ty} (t : val T) : Option T := engaged t.

(** The None copy and move constructors: [Option(const Option<std::monostate> &)] *)
Definition from_none {T : ty} (other : Option monostate) : Option T := nullopt.

Definition is_some {T : ty} (self : Option T) : bool :=
  negb (is_same T monostate) && has_value self.

Definition is_none {T : ty} (self : Option T) : bool :=
  negb (is_some self).

Definition expect {T : ty} (self : Option T) (msg : string)
    (_loc : source_location) : outcome (val T) :=
  if is_some self then value self
  else __panic_impl _loc "{}" [arg_string msg].

Definition unwrap {T : ty} (self : Option T) (_loc : source_location)
    : outcome (val T) :=
  if is_some self then value self
  else __panic_impl _loc "called `Option::unwrap()` on a `None` value" [].

(** [operator==(const Option<std::monostate> &)], the overload that is not a
    template. *)
Definition operator_eq_monostate {T : ty} (self : Option T)
    (rhs : Option monostate) : bool :=
  is_none self.

(** Where the default [_loc] of the [rhs.unwrap()] below is taken. *)
Definition option_h_54 : source_location :=
  {| file_name := "rustly/option.h"; line := 54;
     file_name_c_str := eq_refl |}.

(** [operator==(const Option<U> &)] under
    [requires std::equality_comparable_with<T, U>]. *)
Definition operator_eq_comparable {T U : ty} (self : Option T)
    (rhs : Option U) : outcome bool :=
  if xorb (is_none self) (is_none rhs) then ret false
  else if is_none self && is_none rhs then ret true
  else
    a <- value self ;;
    b <- unwrap rhs option_h_54 ;;
    ret (payload_eq T U a b).

(** [operator==(const Option<U> &)] without the constraint. *)
Definition operator_eq_template {T U : ty} (self : Option T)
    (rhs : Option U) : bool :=
  (is_none self && is_none rhs) || false.

(** [lhs == rhs] after overload resolution.  A function that is not a
    template is preferred to a template specialization, and that rule comes
    before the one that prefers a candidate that is not rewritten: with a
    marker on the left only, the reversed [rhs.operator==(lhs)] is chosen.
    Of the two templates the constrained one is the more specialized. *)
Definition operator_eq {T U : ty} (lhs : Option T) (rhs : Option U)
    : outcome bool :=
  match ty_eq_dec U monostate with
  | left e =>
    ret (operator_eq_monostate lhs (eq_rect U Option rhs monostate e))
  | right _ =>
    match ty_eq_dec T monostate with
    | left e =>
      ret (operator_eq_monostate rhs (eq_rect T Option lhs monostate e))
    | right _ =>
      if equality_comparable_with T U then operator_eq_comparable lhs rhs
      else ret (operator_eq_template lhs rhs)
    end
  end.

Definition map {St : Type} {T U : ty} (self : Option T)
    (f : val T -> eff St (val U)) : eff St (Option U) :=
  if is_none self then ret empty
  else
    v <- lift (value self) ;;
    u <- f v ;;
    ret (holding u).

(** [Option<std::monostate>::map<R, U>], the explicit specialization. *)
Definition map_monostate {St : Type} {R U : ty} (self : Option monostate)
    (f : val R -> eff St (val U)) : eff St (Option U) :=
  ret empty.

Definition ok_or {T E : ty} (distinct : is_same T E = false)
    (self : Option T) (err : val E) : outcome (Result T E) :=
  if is_none self then ret (Result_of_E distinct err)
  else
    v <- value self ;;
    ret (Result_of_T distinct v).

Definition ok_or_else {St : Type} {T E : ty} (distinct : is_same T E = false)
    (self : Option T) (err : unit -> eff St (val E)) : eff St (Result T E) :=
  if is_none self then
    e <- err tt ;;
    ret (Result_of_E distinct e)
  else
    v <- lift (value self) ;;
    ret (Result_of_T distinct v).

(** A copy or a move of an Option.  For [Option<std::monostate>] the None
    copy and move constructors above are the copy and move constructors of
    the class, and they build an empty optional whatever [other] holds;
    every other [Option<T>] has the implicit ones. *)
Definition copy {T : ty} (other : Option T) : Option T :=
  if is_same T monostate then empty else other.

(** The operand of [?:] that is a variable is copied into the result. *)
Definition and_b {T U : ty} (self : Option T) (optb : Option U) : Option U :=
  if is_none self then empty else copy optb.

Definition and_then {St : Type} {T U : ty} (self : Option T)
    (f : val T -> eff St (Option U)) : eff St (Option U) :=
  if is_none self then ret empty
  else
    v <- lift (value self) ;;
    f v.

(** [Option<std::monostate>::and_then<R, U>], the explicit specialization. *)
Definition and_then_monostate {St : Type} {R U : ty} (self : Option monostate)
    (f : val R -> eff St (Option U)) : eff St (Option U) :=
  ret empty.

(** [xor_b(Option<T> optb)] *)
Definition xor_b {T : ty} (self optb : Option T) : Option T :=
  if is_some self && is_none optb then self
  else if is_none self && is_some optb then optb
  else empty.

(** [xor_b(Option<std::monostate> optb)], which
    [requires(!std::same_as<T, std::monostate>)]: for the marker type itself
    the overload above is the one that takes a marker. *)
Definition xor_b_none {T : ty} (self : Option T) (optb : Option monostate)
    : Option T :=
  if is_some self then self else empty.

(** [Option<std::monostate>::xor_b<U>], the explicit specialization. *)
Definition xor_b_monostate {U : ty} (self : Option monostate)
    (optb : Option U) : Option U :=
  if is_some optb then optb else empty.


Definition is_some_and {St : Type} {T : ty} (self : Option T)
    (f : val T -> eff St bool) : eff St bool :=
  if is_some self then
    v <- lift (value self) ;;
    f v
  else ret false.

Definition unwrap_or {T : ty} (self : Option T) (def : val T)
    : outcome (val T) :=
  if is_some self then value self else ret def.

(** [Option<std::monostate>::unwrap_or<U>], the explicit specialization. *)
Definition unwrap_or_monostate {U : ty} (self : Option monostate)
    (def : val U) : val U :=
  def.

Definition unwrap_or_else {St : Type} {T : ty} (self : Option T)
    (f : unit -> eff St (val T)) : eff St (val T) :=
  if is_some self then lift (value self) else f tt.

(** [Option<std::monostate>::unwrap_or_else<U>], the explicit specialization. *)
Definition unwrap_or_else_monostate {St : Type} {U : ty}
    (self : Option monostate) (f : unit -> eff St (val U)) : eff St (val U) :=
  f tt.

Definition unwrap_or_default {T : ty} `{!DefaultInitializable T}
    (self : Option T) : outcome (val T) :=
  if is_some self then value self else ret value_initialized.

Definition map_or {St : Type} {T U : ty} (self : Option T) (def : val U)
    (f : val T -> eff St (val U)) : eff St (val U) :=
  if is_none self then ret def
  else
    v <- lift (value self) ;;
    f v.

(** [Option<std::monostate>::map_or<R, U>], the explicit specialization. *)
Definition map_or_monostate {St : Type} {R U : ty} (self : Option monostate)
    (def : val U) (f : val R -> eff St (val U)) : eff St (val U) :=
  ret def.

Definition map_or_else {St : Type} {T U : ty} (self : Option T)
    (def : unit -> eff St (val U)) (f : val T -> eff St (val U))
    : eff St (val U) :=
  if is_none self then def tt
  else
    v <- lift (value self) ;;
    f v.

(** [Option<std::monostate>::map_or_else<R, U>], the explicit specialization. *)
Definition map_or_else_monostate {St : Type} {R U : ty}
    (self : Option monostate) (def : unit -> eff St (val U))
    (f : val R -> eff St (val U)) : eff St (val U) :=
  def tt.

(** [filter<R>] under [requires std::convertible_to<T, R>]; [&&] calls the
    predicate only on an Option that reports a value. *)
Definition filter {St : Type} {T R : ty} `{!ConvertibleTo T R}
    (self : Option T) (predicate : val R -> eff St bool)
    : eff St (Option R) :=
  keep <- (if is_some self then
             v <- lift (value self) ;;
             predicate (convert v)
           else ret false) ;;
  if (keep : bool) then
    v <- lift (value self) ;;
    ret (holding (convert v))
  else ret empty.

(** [Option<std::monostate>::filter<R>], the explicit specialization: the
    [Option<std::monostate>()] it returns becomes an [Option<R>] through the
    None constructor. *)
Definition filter_monostate {St : Type} {R : ty} (self : Option monostate)
    (predicate : val R -> eff St bool) : eff St (Option R) :=
  ret (from_none (@empty monostate)).

(** [or_b(Option<T> optb)] *)
Definition or_b {T : ty} (self optb : Option T) : Option T :=
  if is_some self then copy self else copy optb.

(** [or_b(Option<std::monostate> optb)], which
    [requires(!std::same_as<T, std::monostate>)]. *)
Definition or_b_none {T : ty} (self : Option T) (optb : Option monostate)
    : Option T :=
  if is_some self then copy self else empty.

(** [Option<std::monostate>::or_b<U>], the explicit specialization. *)
Definition or_b_monostate {U : ty} (self : Option monostate)
    (optb : Option U) : Option U :=
  copy optb.

Definition or_else {St : Type} {T : ty} (self : Option T)
    (f : unit -> eff St (Option T)) : eff St (Option T) :=
  if is_some self then ret (copy self) else f tt.

(** [Option<std::monostate>::or_else<U>], the explicit specialization. *)
Definition or_else_monostate {St : Type} {U : ty} (self : Option monostate)
    (f : unit -> eff St (Option U)) : eff St (Option U) :=
  f tt.

End Methods.
End Option.

(* --------------------------------------------------------------------- *)
(** *** result.h *)
(* --------------------------------------------------------------------- *)

Module Result.
Section Methods.
Context {TY : Types}.

Definition is_ok {T E : ty} (self : Result T E) : bool :=
  (index self =? 0)%N.

Definition is_err {T E : ty} (self : Result T E) : bool :=
  (index self =? 1)%N.

(** [&&] and [||] evaluate their right operand only when needed. *)
Definition operator_eq {T E : ty} (self rhs : Result T E) : outcome bool :=
  oks <- (if is_ok self && is_ok rhs then
            a <- get_0 self ;;
            b <- get_0 rhs ;;
            ret (payload_eq T T a b)
          else ret false) ;;
  if (oks : bool) then ret true
  else if is_err self && is_err rhs then
    a <- get_1 self ;;
    b <- get_1 rhs ;;
    ret (payload_eq E E a b)
  else ret false.

Definition ok {T E : ty} (self : Result T E) : outcome (Option T) :=
  if is_ok self then
    v <- get_0 self ;;
    ret (Option.holding v)
  else ret Option.empty.

Definition err {T E : ty} (self : Result T E) : outcome (Option E) :=
  if is_err self then
    e <- get_1 self ;;
    ret (Option.holding e)
  else ret Option.empty.

(** Both arms go through the converting constructor, so [U] and [E] are
    distinct types wherever this compiles. *)
Definition map {St : Type} {T E U : ty} (distinct : is_same U E = false)
    (self : Result T E) (f : val T -> eff St (val U)) : eff St (Result U E) :=
  if is_ok self then
    v <- lift (get_0 self) ;;
    u <- f v ;;
    ret (Result_of_T distinct u)
  else
    e <- lift (get_1 self) ;;
    ret (Result_of_E distinct e).

Definition map_err {St : Type} {T E F : ty} (self : Result T E)
    (op : val E -> eff St (val F)) : eff St (Result T F) :=
  if is_ok self then
    v <- lift (get_0 self) ;;
    ret (in_place_index_0 v : Result T F)
  else
    e <- lift (get_1 self) ;;
    x <- op e ;;
    ret (in_place_index_1 x : Result T F).

Definition expect {T E : ty} `{!ToString E} (self : Result T E) (msg : string)
    (_loc : source_location) : outcome (val T) :=
  if is_ok self then get_0 self
  else
    e <- get_1 self ;;
    __panic_impl _loc "{}: {}" [arg_string msg; arg_string (to_string e)].

Definition unwrap {T E : ty} `{!ToString E} (self : Result T E)
    (_loc : source_location) : outcome (val T) :=
  if is_ok self then get_0 self
  else
    e <- get_1 self ;;
    __panic_impl _loc "called `Result::unwrap()` on an `Err` value: {}"
      [arg_string (to_string e)].


Definition is_ok_and {St : Type} {T E : ty} (self : Result T E)
    (f : val T -> eff St bool) : eff St bool :=
  if is_ok self then
    v <- lift (get_0 self) ;;
    f v
  else ret false.

Definition is_err_and {St : Type} {T E : ty} (self : Result T E)
    (f : val E -> eff St bool) : eff St bool :=
  if is_err self then
    e <- lift (get_1 self) ;;
    f e
  else ret false.

Definition map_or {St : Type} {T E U : ty} (self : Result T E) (def : val U)
    (f : val T -> eff St (val U)) : eff St (val U) :=
  if is_ok self then
    v <- lift (get_0 self) ;;
    f v
  else ret def.

Definition map_or_else {St : Type} {T E U : ty} (self : Result T E)
    (d : val E -> eff St (val U)) (f : val T -> eff St (val U))
    : eff St (val U) :=
  if is_ok self then
    v <- lift (get_0 self) ;;
    f v
  else
    e <- lift (get_1 self) ;;
    d e.

Definition unwrap_or {T E : ty} (self : Result T E) (def : val T)
    : outcome (val T) :=
  if is_ok self then get_0 self else ret def.

Definition unwrap_or_else {St : Type} {T E : ty} (self : Result T E)
    (op : val E -> eff St (val T)) : eff St (val T) :=
  if is_ok self then lift (get_0 self)
  else
    e <- lift (get_1 self) ;;
    op e.

Definition unwrap_or_default {T E : ty} `{!DefaultInitializable T}
    (self : Result T E) : outcome (val T) :=
  if is_ok self then get_0 self else ret value_initialized.

Definition expect_err {T E : ty} `{!ToString T} (self : Result T E)
    (msg : string) (loc : source_location) : outcome (val E) :=
  if is_err self then get_1 self
  else
    v <- get_0 self ;;
    __panic_impl loc "{}: {}" [arg_string msg; arg_string (to_string v)].

Definition unwrap_err {T E : ty} `{!ToString T} (self : Result T E)
    (loc : source_location) : outcome (val E) :=
  if is_err self then get_1 self
  else
    v <- get_0 self ;;
    __panic_impl loc "called `Result::unwrap_err()` on an `Ok` value: {}"
      [arg_string (to_string v)].

Definition and_b {T E U : ty} (self : Result T E) (res : Result U E)
    : outcome (Result U E) :=
  if is_ok self then ret res
  else
    e <- get_1 self ;;
    ret (in_place_index_1 e : Result U E).

Definition and_then {St : Type} {T E U : ty} (self : Result T E)
    (op : val T -> eff St (Result U E)) : eff St (Result U E) :=
  if is_ok self then
    v <- lift (get_0 self) ;;
    op v
  else
    e <- lift (get_1 self) ;;
    ret (in_place_index_1 e : Result U E).

Definition or_b {T E F : ty} (self : Result T E) (res : Result T F)
    : outcome (Result T F) :=
  if is_ok self then
    v <- get_0 self ;;
    ret (in_place_index_0 v : Result T F)
  else ret res.

Definition or_else {St : Type} {T E F : ty} (self : Result T E)
    (op : val E -> eff St (Result T F)) : eff St (Result T F) :=
  if is_ok self then
    v <- lift (get_0 self) ;;
    ret (in_place_index_0 v : Result T F)
  else
    e <- lift (get_1 self) ;;
    op e.

End Methods.
End Result.

(** The construction helpers. *)
Definition Ok `{Types} {T E : ty} (t : val T) : Result T E :=
  in_place_index_0 t.

Definition Err `{Types} {T E : ty} (e : val E) : Result T E :=
  in_place_index_1 e.

Definition Some `{Types} {T : ty} (t : val T) : Option T :=
  Option.holding t.

(** [None<T>()]; [T] is [std::monostate] when it is left out. *)
Definition None `{Types} {T : ty} : Option T :=
  Option.empty.

End rustly.

Import rustly.

(* ===================================================================== *)
(** ** The payload types of the test suite *)
(* ===================================================================== *)

(** [std::monostate], [int], [std::string] and [const char *].  A
    [const char *] is a string literal here, named by its text: equal
    literals are taken to share their storage, as the test suite's
    [EXPECT_EQ(Some("hiya"), Some("hiya"))] takes them to. *)
Inductive cxx_type : Type :=
| t_monostate
| t_int
| t_std_string
| t_const_char_ptr.

Definition cxx_type_eq_dec (a b : cxx_type) : {a = b} + {a <> b}.
Proof. decide equality. Defined.

Definition cxx_val (T : cxx_type) : Type :=
  match T with
  | t_monostate => unit
  | t_int => Z
  | t_std_string => string
  | t_const_char_ptr => string
  end.

Definition cxx_comparable (T U : cxx_type) : bool :=
  match T, U with
  | t_monostate, t_monostate => true
  | t_int, t_int => true
  | t_std_string, t_std_string => true
  | t_std_string, t_const_char_ptr => true
  | t_const_char_ptr, t_std_string => true
  | t_const_char_ptr, t_const_char_ptr => true
  | _, _ => false
  end.

Definition cxx_eq (T U : cxx_type) : cxx_val T -> cxx_val U -> bool :=
  match T as T', U as U' return cxx_val T' -> cxx_val U' -> bool with
  | t_monostate, t_monostate => fun _ _ => true
  | t_int, t_int => Z.eqb
  | t_std_string, t_std_string => String.eqb
  | t_std_string, t_const_char_ptr => String.eqb
  | t_const_char_ptr, t_std_string => String.eqb
  | t_const_char_ptr, t_const_char_ptr => String.eqb
  | _, _ => fun _ _ => false
  end.

#[global] Instance test_types : Types :=
  {| ty := cxx_type;
     ty_eq_dec := cxx_type_eq_dec;
     monostate := t_monostate;
     val := cxx_val;
     equality_comparable_with := cxx_comparable;
     payload_eq := cxx_eq |}.

(** [std::to_string(int)] *)
#[global] Instance ToString_int : @ToString test_types t_int :=
  fun x : Z => NilZero.string_of_int (Z.to_int x).

(** [std::string] is convertible to itself. *)
#[global] Instance ToString_std_string : @ToString test_types t_std_string :=
  fun s : string => s.

(** The casts and value-initializations of the test suite's types. *)
#[global] Instance ConvertibleTo_int_int
  : @ConvertibleTo test_types t_int t_int :=
  fun x : Z => x.

#[global] Instance ConvertibleTo_const_char_ptr_std_string
  : @ConvertibleTo test_types t_const_char_ptr t_std_string :=
  fun s : string => s.

#[global] Instance DefaultInitializable_int
  : @DefaultInitializable test_types t_int :=
  0%Z.

#[global] Instance DefaultInitializable_std_string
  : @DefaultInitializable test_types t_std_string :=
  EmptyString.

(** The closure of the [map_err] example:
    [[](auto x){ return std::string("error code: " + std::to_string(x)); }] *)
Definition stringify {St : Type} (x : Z) : eff St string :=
  ret ("error code: " ++ to_string (T := t_int) x).

(** A call site in a test file. *)
Definition option_test_95 : source_location :=
  {| file_name := "tests/option_test.cpp"; line := 95;
     file_name_c_str := eq_refl |}.

Definition result_test_203 : source_location :=
  {| file_name := "tests/result_test.cpp"; line := 203;
     file_name_c_str := eq_refl |}.

(* ===================================================================== *)
(** ** Observing calls and diagnostics *)
(* ===================================================================== *)

(** A closure instrumented with a call counter kept next to the state it
    captured: every invocation adds one. *)
Definition counted {St A B : Type} (f : A -> eff St B)
    : A -> eff (nat * St) B :=
  fun a ns =>
    let (r, s') := f a (snd ns) in
    (r, (S (fst ns), s')).

(** The patterns of the death tests: literal text and [.*]. *)
Inductive regex : Type :=
| re_lit (s : string)
| re_any_star
| re_cat (r1 r2 : regex).

Fixpoint matches (r : regex) (s : string) : Prop :=
  match r with
  | re_lit l => s = l
  | re_any_star => True
  | re_cat r1 r2 => exists s1 s2, s = s1 ++ s2 /\ matches r1 s1 /\ matches r2 s2
  end.

(** A death test passes when the pattern matches somewhere in the output. *)
Definition partial_match (r : regex) (s : string) : Prop :=
  exists before mid after, s = before ++ mid ++ after /\ matches r mid.

Fixpoint re_seq (rs : list regex) : regex :=
  match rs with
  | [] => re_lit EmptyString
  | [r] => r
  | r :: rs' => re_cat r (re_seq rs')
  end.

(** [panicked at .*\ncalled .*unwrap.* on a .*None.* value] *)
Definition unwrap_none_pattern : regex :=
  re_seq [re_lit "panicked at "; re_any_star; re_lit (LF ++ "called ");
          re_any_star; re_lit "unwrap"; re_any_star; re_lit " on a ";
          re_any_star; re_lit "None"; re_any_star; re_lit " value"].


(** What [__panic_impl] writes for a formatted message [body]: the call
    site on the first line, the message on the second. *)
Definition diagnostic (loc : source_location) (body : string) : string :=
  "panicked at " ++ file_name loc ++ ":"
    ++ NilZero.string_of_uint (N.to_uint (line loc)) ++ LF ++ body ++ LF.

(* ===================================================================== *)
(** ** Basic facts *)
(* ===================================================================== *)

Section Basics.
Context {TY : Types}.

Lemma is_same_refl (a : ty) : is_same a a = true.
Proof.
  unfold is_same. destruct (ty_eq_dec a a) as [_ | n]; [reflexivity | now destruct n].
Qed.

Lemma is_same_false (a b : ty) : is_same a b = false -> a <> b.
Proof.
  unfold is_same. destruct (ty_eq_dec a b); [discriminate | trivial].
Qed.

Lemma is_none_negb {T : ty} (o : Option T) :
  Option.is_none o = negb (Option.is_some o).
Proof. reflexivity. Qed.

Lemma is_some_not_none {T : ty} (o : Option T) :
  Option.is_some o = true -> Option.is_none o = false.
Proof. unfold Option.is_none. now intros ->. Qed.

Lemma is_none_not_some {T : ty} (o : Option T) :
  Option.is_none o = true -> Option.is_some o = false.
Proof. unfold Option.is_none. now destruct (Option.is_some o). Qed.

(** An Option that reports a value holds one, and is not marker-typed. *)
Lemma is_some_inv {T : ty} (o : Option T) :
  Option.is_some o = true ->
  T <> monostate /\ exists v, o = engaged v.
Proof.
  unfold Option.is_some. intros H.
  apply andb_true_iff in H as [Hty Hv]. split.
  - apply is_same_false. now destruct (is_same T monostate).
  - destruct o as [| v]; [discriminate | now exists v].
Qed.

Lemma is_some_engaged {T : ty} (v : val T) :
  T <> monostate -> Option.is_some (engaged v : Option T) = true.
Proof.
  intros Hne. unfold Option.is_some, is_same.
  destruct (ty_eq_dec T monostate); [contradiction | reflexivity].
Qed.

Lemma marker_is_some (o : Option monostate) : Option.is_some o = false.
Proof. unfold Option.is_some. now rewrite is_same_refl. Qed.

Lemma empty_is_some {T : ty} : Option.is_some (@Option.empty _ T) = false.
Proof. unfold Option.is_some. apply andb_false_r. Qed.

End Basics.

Lemma append_assoc (a b c : string) : (a ++ b) ++ c = a ++ b ++ c.
Proof. induction a as [| ch a IH]; simpl; [reflexivity | now rewrite IH]. Qed.

Lemma append_nil_r (a : string) : a ++ EmptyString = a.
Proof. induction a as [| ch a IH]; simpl; [reflexivity | now rewrite IH]. Qed.

Lemma nul_free_append (a b : string) :
  nul_free (a ++ b) = nul_free a && nul_free b.
Proof.
  induction a as [| ch a IH]; simpl; [reflexivity |].
  rewrite IH. now destruct (Ascii.eqb ch zero).
Qed.

Lemma c_str_nul_free (s : string) : nul_free s = true -> c_str s = s.
Proof.
  induction s as [| ch s IH]; simpl; [reflexivity |].
  destruct (Ascii.eqb ch zero); simpl; [discriminate |].
  intros H. now rewrite IH.
Qed.

Lemma c_str_append (a b : string) :
  nul_free a = true -> c_str (a ++ b) = a ++ c_str b.
Proof.
  induction a as [| ch a IH]; simpl; [reflexivity |].
  destruct (Ascii.eqb ch zero); simpl; [discriminate |].
  intros H. now rewrite IH.
Qed.

Lemma c_str_cut (a b : string) :
  nul_free a = true -> c_str (a ++ NUL ++ b) = a.
Proof.
  intros H. rewrite (c_str_append _ _ H). simpl. apply append_nil_r.
Qed.

Lemma nul_free_digits (d : Decimal.uint) :
  nul_free (NilEmpty.string_of_uint d) = true.
Proof. induction d; simpl; auto. Qed.

Lemma nul_free_decimal (n : N) :
  nul_free (NilZero.string_of_uint (N.to_uint n)) = true.
Proof.
  unfold NilZero.string_of_uint.
  destruct (N.to_uint n); try reflexivity; apply nul_free_digits.
Qed.

Lemma panic_impl_diagnostic (A : Type) (loc : source_location) (fmt : string)
    (args : list format_arg) :
  @__panic_impl A loc fmt args
  = Aborted (c_str (diagnostic loc (format fmt args))).
Proof. reflexivity. Qed.

Lemma format_one_field (s : string) : format "{}" [arg_string s] = s.
Proof. simpl. apply append_nil_r. Qed.

Lemma format_message_and_payload (msg s : string) :
  format "{}: {}" [arg_string msg; arg_string s] = msg ++ ": " ++ s.
Proof. simpl. now rewrite append_nil_r. Qed.

(** The first line, with the call site, is always written whole; a NUL byte
    can only cut the message. *)
Lemma c_str_diagnostic (loc : source_location) (body : string) :
  c_str (diagnostic loc body)
  = "panicked at " ++ file_name loc ++ ":"
    ++ NilZero.string_of_uint (N.to_uint (line loc)) ++ LF
    ++ c_str (body ++ LF).
Proof.
  unfold diagnostic. simpl.
  rewrite (c_str_append _ _ (file_name_c_str loc)). simpl.
  rewrite (c_str_append _ _ (nul_free_decimal (line loc))).
  reflexivity.
Qed.

Lemma c_str_diagnostic_nul_free (loc : source_location) (body : string) :
  nul_free body = true -> c_str (diagnostic loc body) = diagnostic loc body.
Proof.
  intros H. rewrite c_str_diagnostic. unfold diagnostic.
  rewrite (c_str_nul_free (body ++ LF)); [reflexivity |].
  rewrite nul_free_append, H. reflexivity.
Qed.

(* ===================================================================== *)
(** ** Equality of Options *)
(* ===================================================================== *)

Section OptionEquality.
Context {TY : Types}.

Lemma operator_eq_none_none {T U : ty} (a : Option T) (b : Option U) :
  Option.is_none a = true -> Option.is_none b = true ->
  Option.operator_eq a b = Returned true.
Proof.
  intros Ha Hb. unfold Option.operator_eq.
  destruct (ty_eq_dec U monostate) as [e | _]; simpl.
  - unfold Option.operator_eq_monostate. now rewrite Ha.
  - destruct (ty_eq_dec T monostate) as [e | _]; simpl.
    + unfold Option.operator_eq_monostate. now rewrite Hb.
    + destruct (equality_comparable_with T U).
      * unfold Option.operator_eq_comparable. now rewrite Ha, Hb.
      * unfold Option.operator_eq_template. now rewrite Ha, Hb.
Qed.

Lemma operator_eq_none_some {T U : ty} (a : Option T) (b : Option U) :
  Option.is_none a = true -> Option.is_some b = true ->
  Option.operator_eq a b = Returned false.
Proof.
  intros Ha Hb. pose proof (is_some_not_none _ Hb) as Hb'.
  destruct (is_some_inv _ Hb) as [HU _].
  unfold Option.operator_eq.
  destruct (ty_eq_dec U monostate) as [e | _]; [contradiction |].
  destruct (ty_eq_dec T monostate) as [e | _]; simpl.
  - unfold Option.operator_eq_monostate. now rewrite Hb'.
  - destruct (equality_comparable_with T U).
    + unfold Option.operator_eq_comparable. now rewrite Ha, Hb'.
    + unfold Option.operator_eq_template. now rewrite Ha, Hb'.
Qed.

Lemma operator_eq_some_none {T U : ty} (a : Option T) (b : Option U) :
  Option.is_some a = true -> Option.is_none b = true ->
  Option.operator_eq a b = Returned false.
Proof.
  intros Ha Hb. pose proof (is_some_not_none _ Ha) as Ha'.
  destruct (is_some_inv _ Ha) as [HT _].
  unfold Option.operator_eq.
  destruct (ty_eq_dec U monostate) as [e | _]; simpl.
  - unfold Option.operator_eq_monostate. now rewrite Ha'.
  - destruct (ty_eq_dec T monostate) as [e | _]; [contradiction |].
    destruct (equality_comparable_with T U).
    + unfold Option.operator_eq_comparable. now rewrite Ha', Hb.
    + unfold Option.operator_eq_template. now rewrite Ha'.
Qed.

Lemma operator_eq_some_some {T U : ty} (a : Option T) (b : Option U) :
  Option.is_some a = true -> Option.is_some b = true ->
  exists x y, a = Some x /\ b = Some y /\
    Option.operator_eq a b
    = Returned (equality_comparable_with T U && payload_eq T U x y).
Proof.
  intros Ha Hb.
  pose proof (is_some_not_none _ Ha) as Ha'.
  pose proof (is_some_not_none _ Hb) as Hb'.
  destruct (is_some_inv _ Ha) as [HT [x ->]].
  destruct (is_some_inv _ Hb) as [HU [y ->]].
  exists x, y. repeat split.
  unfold Option.operator_eq.
  destruct (ty_eq_dec U monostate) as [e | _]; [contradiction |].
  destruct (ty_eq_dec T monostate) as [e | _]; [contradiction |].
  destruct (equality_comparable_with T U); simpl.
  - unfold Option.operator_eq_comparable, Option.unwrap.
    now rewrite Ha', Hb', Hb.
  - unfold Option.operator_eq_template. now rewrite Ha'.
Qed.


End OptionEquality.

(** C1.  Equality of two Options always returns, and it is decided by the
    states of the two: two empty Options are equal whatever their payload
    types, the untyped marker included; an empty and an occupied one are
    unequal, in either order; two occupied ones are equal exactly when
    their payload types are comparable and the payloads compare equal, so
    that payloads of types that are not comparable give [false] and not an
    error. *)
Theorem Option_equality_trichotomy {TY : Types} (T U : ty)
    (a : Option T) (b : Option U) :
  (exists r, Option.operator_eq a b = Returned r)
  /\ (Option.is_none a = true -> Option.is_none b = true ->
      Option.operator_eq a b = Returned true)
  /\ (Option.is_none a = true -> Option.is_some b = true ->
      Option.operator_eq a b = Returned false)
  /\ (Option.is_some a = true -> Option.is_none b = true ->
      Option.operator_eq a b = Returned false)
  /\ (Option.is_some a = true -> Option.is_some b = true ->
      exists x y, a = Some x /\ b = Some y /\
        Option.operator_eq a b
        = Returned (equality_comparable_with T U && payload_eq T U x y)).
Proof.
  split; [| repeat split].
  - destruct (Option.is_some a) eqn:Ha; destruct (Option.is_some b) eqn:Hb.
    + destruct (operator_eq_some_some a b Ha Hb) as (x & y & _ & _ & ->).
      eauto.
    + rewrite (operator_eq_some_none a b Ha); [eauto |].
      unfold Option.is_none. now rewrite Hb.
    + rewrite (operator_eq_none_some a b); [eauto | | exact Hb].
      unfold Option.is_none. now rewrite Ha.
    + rewrite (operator_eq_none_none a b); [eauto | |];
        unfold Option.is_none; [now rewrite Ha | now rewrite Hb].
  - apply operator_eq_none_none.
  - apply operator_eq_none_some.
  - apply operator_eq_some_none.
  - apply operator_eq_some_some.
Qed.

(** [None<int>() == None()], [Some(1) != None()], [Some(1) != Some("x")],
    [Some(1) == Some(1)]. *)
Lemma Option_equality_trichotomy_witness :
  Option.operator_eq (None (T := t_int)) (None (T := t_monostate))
    = Returned true
  /\ Option.operator_eq (Some (T := t_int) 1%Z) (None (T := t_monostate))
    = Returned false
  /\ Option.operator_eq (Some (T := t_int) 1%Z) (Some (T := t_const_char_ptr) "x")
    = Returned false
  /\ Option.operator_eq (Some (T := t_int) 1%Z) (Some (T := t_int) 1%Z)
    = Returned true.
Proof.
  split; [| split; [| split]].
  - apply (Option_equality_trichotomy (TY := test_types) t_int t_monostate); reflexivity.
  - apply (Option_equality_trichotomy (TY := test_types) t_int t_monostate); reflexivity.
  - destruct (Option_equality_trichotomy (TY := test_types) t_int t_const_char_ptr
               (@Some test_types t_int 1%Z) (@Some test_types t_const_char_ptr "x"))
      as (_ & _ & _ & _ & H).
    destruct (H eq_refl eq_refl) as (x & y & _ & _ & ->). reflexivity.
  - destruct (Option_equality_trichotomy (TY := test_types) t_int t_int
               (@Some test_types t_int 1%Z) (@Some test_types t_int 1%Z))
      as (_ & _ & _ & _ & H).
    destruct (H eq_refl eq_refl) as (x & y & Hx & Hy & ->).
    injection Hx as <-. injection Hy as <-. reflexivity.
Defined.

(** C2.  An Option whose payload type is the untyped marker never reports
    a value: [is_some] is false and [is_none] true, also when it was built
    from a [std::monostate] value; and it compares equal, on either side,
    to every empty Option. *)
Theorem marker_typed_Option_never_some {TY : Types} (o : Option monostate) :
  Option.is_some o = false
  /\ Option.is_none o = true
  /\ (forall v : val monostate,
        Option.is_some (Some (T := monostate) v) = false
        /\ Option.is_none (Some (T := monostate) v) = true)
  /\ (forall (U : ty) (e : Option U), Option.is_none e = true ->
        Option.operator_eq o e = Returned true
        /\ Option.operator_eq e o = Returned true).
Proof.
  assert (Hnone : forall m : Option monostate, Option.is_none m = true).
  { intros m. unfold Option.is_none. now rewrite marker_is_some. }
  repeat split.
  - apply marker_is_some.
  - apply Hnone.
  - apply marker_is_some.
  - apply Hnone.
  - apply operator_eq_none_none; [apply Hnone | assumption].
  - apply operator_eq_none_none; [assumption | apply Hnone].
Qed.

(** [Some(std::monostate{})] against [None<int>()]. *)
Lemma marker_typed_Option_never_some_witness :
  Option.is_some (Some (T := t_monostate) tt) = false
  /\ Option.operator_eq (Some (T := t_monostate) tt) (None (T := t_int))
     = Returned true
  /\ Option.operator_eq (None (T := t_int)) (Some (T := t_monostate) tt)
     = Returned true.
Proof.
  destruct (marker_typed_Option_never_some (@Some test_types t_monostate tt))
    as (Hs & _ & _ & Heq).
  split; [exact Hs |].
  exact (Heq t_int (@None test_types t_int) eq_refl).
Defined.

(* ===================================================================== *)
(** ** Closures on the empty path *)
(* ===================================================================== *)

Section Laziness.
Context {TY : Types} {St : Type}.

Lemma map_empty {T U : ty} (o : Option T) (f : val T -> eff St (val U))
    (s : St) :
  Option.is_none o = true -> Option.map o f s = (Returned None, s).
Proof. intros H. unfold Option.map. now rewrite H. Qed.

Lemma and_then_empty {T U : ty} (o : Option T)
    (g : val T -> eff St (Option U)) (s : St) :
  Option.is_none o = true -> Option.and_then o g s = (Returned None, s).
Proof. intros H. unfold Option.and_then. now rewrite H. Qed.

(** On an occupied Option the closure runs once, on the payload: the
    counter of an instrumented closure goes up by one. *)
Lemma map_occupied_counts {T U : ty} (x : val T) (f : val T -> eff St (val U))
    (n : nat) (s s' : St) (u : val U) :
  T <> monostate -> f x s = (Returned u, s') ->
  Option.map (Some x) (counted f) (n, s) = (Returned (Some u), (S n, s')).
Proof.
  intros HT Hf. unfold Option.map, Option.is_none, Some, Option.holding.
  rewrite (is_some_engaged x HT). simpl. unfold counted. simpl.
  now rewrite Hf.
Qed.

End Laziness.

(** C3.  [map] and [and_then] on an empty Option return an empty Option and
    leave the state the closure captured as it was, whatever the closure
    is; a closure that counts its invocations still shows the count it
    started with.  The same holds for the two specializations for the
    untyped marker, which take a closure over any argument type. *)
Theorem closures_not_invoked_on_empty {TY : Types} (St : Type) (T U : ty)
    (o : Option T) (f : val T -> eff St (val U))
    (g : val T -> eff St (Option U)) (s : St) :
  (Option.is_none o = true ->
     Option.map o f s = (Returned None, s)
     /\ Option.and_then o g s = (Returned None, s)
     /\ (forall n : nat,
           Option.map o (counted f) (n, s) = (Returned None, (n, s)))
     /\ (forall n : nat,
           Option.and_then o (counted g) (n, s) = (Returned None, (n, s))))
  /\ (forall (R : ty) (m : Option monostate) (f' : val R -> eff St (val U))
        (g' : val R -> eff St (Option U)),
        Option.map_monostate m f' s = (Returned None, s)
        /\ Option.and_then_monostate m g' s = (Returned None, s)
        /\ (forall n : nat,
              Option.map_monostate m (counted f') (n, s)
              = (Returned None, (n, s)))
        /\ (forall n : nat,
              Option.and_then_monostate m (counted g') (n, s)
              = (Returned None, (n, s)))).
Proof.
  split.
  - intros H. split; [| split; [| split]].
    + now apply map_empty.
    + now apply and_then_empty.
    + intros n. now apply map_empty.
    + intros n. now apply and_then_empty.
  - intros R m f' g'. split; [| split; [| split]]; reflexivity.
Qed.

(** [None<int>().map(f)], [None<int>().and_then(g)] and [None().map(f)]
    with closures that would write 7 into the captured variable. *)
Lemma closures_not_invoked_on_empty_witness :
  Option.map (U := t_int) (None (T := t_int))
    (fun x (_ : Z) => (Returned (x + 1)%Z, 7%Z)) 0%Z
  = (Returned None, 0%Z)
  /\ Option.and_then (U := t_int) (None (T := t_int))
       (fun x (_ : Z) => (Returned (Some (T := t_int) x), 7%Z)) 0%Z
     = (Returned None, 0%Z)
  /\ Option.map_monostate (R := t_int) (U := t_int) (None (T := t_monostate))
       (fun x (_ : Z) => (Returned (x + 1)%Z, 7%Z)) 0%Z
     = (Returned None, 0%Z).
Proof.
  destruct (closures_not_invoked_on_empty (TY := test_types) Z t_int t_int
              (@None test_types t_int)
              (fun x (_ : Z) => (Returned (x + 1)%Z, 7%Z))
              (fun x (_ : Z) => (Returned (@Some test_types t_int x), 7%Z))
              0%Z) as [H Hmarker].
  destruct (H eq_refl) as (Hm & Ha & _).
  split; [exact Hm | split; [exact Ha |]].
  exact (proj1 (Hmarker t_int (@None test_types t_monostate)
                  (fun x (_ : Z) => (Returned (x + 1)%Z, 7%Z))
                  (fun x (_ : Z) => (Returned (@Some test_types t_int x), 7%Z)))).
Defined.

(* ===================================================================== *)
(** ** The eager boolean combinators *)
(* ===================================================================== *)

Section Copies.
Context {TY : Types}.

Lemma copy_not_marker {T : ty} (o : Option T) :
  T <> monostate -> Option.copy o = o.
Proof.
  intros H. unfold Option.copy, is_same.
  destruct (ty_eq_dec T monostate); [contradiction | reflexivity].
Qed.

Lemma copy_occupied {T : ty} (o : Option T) :
  Option.is_some o = true -> Option.copy o = o.
Proof. intros H. apply copy_not_marker. now destruct (is_some_inv _ H). Qed.

Lemma copy_marker (o : Option monostate) : Option.copy o = None.
Proof. unfold Option.copy. now rewrite is_same_refl. Qed.

Lemma copy_is_some {T : ty} (o : Option T) :
  Option.is_some (Option.copy o) = Option.is_some o.
Proof.
  unfold Option.copy, Option.is_some.
  destruct (is_same T monostate); reflexivity.
Qed.



End Copies.



Section Xor.
Context {TY : Types}.

Lemma xor_b_is_some {T : ty} (a b : Option T) :
  Option.is_some (Option.xor_b a b)
  = xorb (Option.is_some a) (Option.is_some b).
Proof.
  unfold Option.xor_b, Option.is_none.
  destruct (Option.is_some a) eqn:Ha, (Option.is_some b) eqn:Hb; simpl;
    rewrite ?Ha, ?Hb, ?empty_is_some; reflexivity.
Qed.

Lemma xor_b_none_is_some {T : ty} (a : Option T) (m : Option monostate) :
  Option.is_some (Option.xor_b_none a m)
  = xorb (Option.is_some a) (Option.is_some m).
Proof.
  unfold Option.xor_b_none. rewrite (marker_is_some m), xorb_false_r.
  destruct (Option.is_some a) eqn:Ha; [exact Ha | apply empty_is_some].
Qed.

Lemma xor_b_monostate_is_some {U : ty} (m : Option monostate) (c : Option U) :
  Option.is_some (Option.xor_b_monostate m c)
  = xorb (Option.is_some m) (Option.is_some c).
Proof.
  unfold Option.xor_b_monostate. rewrite (marker_is_some m), xorb_false_l.
  destruct (Option.is_some c) eqn:Hc; [exact Hc | apply empty_is_some].
Qed.

End Xor.

(** C9.  [xor_b] reports a value exactly when one of its two operands
    does, and it is then that operand; otherwise it is empty, also when
    both operands hold equal payloads.  This holds for the three forms of
    the call: both operands of one type, the untyped marker as argument,
    and the untyped marker as receiver; the marker counts as empty. *)
Theorem xor_b_exactly_one {TY : Types} (T U : ty) (a b : Option T)
    (m : Option monostate) (c : Option U) :
  Option.is_some (Option.xor_b a b)
    = xorb (Option.is_some a) (Option.is_some b)
  /\ (Option.is_some a = true -> Option.is_none b = true ->
      Option.xor_b a b = a)
  /\ (Option.is_none a = true -> Option.is_some b = true ->
      Option.xor_b a b = b)
  /\ (Option.is_some a = Option.is_some b -> Option.xor_b a b = None)
  /\ Option.is_some (Option.xor_b_none a m)
       = xorb (Option.is_some a) (Option.is_some m)
  /\ (Option.is_some a = true -> Option.xor_b_none a m = a)
  /\ (Option.is_none a = true -> Option.xor_b_none a m = None)
  /\ Option.is_some (Option.xor_b_monostate m c)
       = xorb (Option.is_some m) (Option.is_some c)
  /\ (Option.is_some c = true -> Option.xor_b_monostate m c = c)
  /\ (Option.is_none c = true -> Option.xor_b_monostate m c = None).
Proof.
  split; [apply xor_b_is_some |].
  split; [intros Ha Hb; unfold Option.xor_b; now rewrite Ha, Hb |].
  split.
  { intros Ha Hb. unfold Option.xor_b.
    rewrite Ha, Hb, (is_none_not_some _ Ha). reflexivity. }
  split.
  { intros H. unfold Option.xor_b, Option.is_none. rewrite H.
    destruct (Option.is_some b); reflexivity. }
  split; [apply xor_b_none_is_some |].
  split; [intros Ha; unfold Option.xor_b_none; now rewrite Ha |].
  split.
  { intros Ha. unfold Option.xor_b_none.
    now rewrite (is_none_not_some _ Ha). }
  split; [apply xor_b_monostate_is_some |].
  split; [intros Hc; unfold Option.xor_b_monostate; now rewrite Hc |].
  intros Hc. unfold Option.xor_b_monostate.
  now rewrite (is_none_not_some _ Hc).
Qed.

(** [Some(2).xor_b(Some(2)) == None()], [Some(2).xor_b(None()) == Some(2)]
    and [None().xor_b(Some(2)) == Some(2)]. *)
Lemma xor_b_exactly_one_witness :
  Option.xor_b (Some (T := t_int) 2%Z) (Some (T := t_int) 2%Z) = None
  /\ Option.xor_b_none (Some (T := t_int) 2%Z) (None (T := t_monostate))
     = Some (T := t_int) 2%Z
  /\ Option.xor_b_monostate (None (T := t_monostate)) (Some (T := t_int) 2%Z)
     = Some (T := t_int) 2%Z.
Proof.
  destruct (xor_b_exactly_one (TY := test_types) t_int t_int
              (@Some test_types t_int 2%Z) (@Some test_types t_int 2%Z)
              (@None test_types t_monostate) (@Some test_types t_int 2%Z))
    as (_ & _ & _ & Hboth & _ & Harg & _ & _ & Hrecv & _).
  split; [exact (Hboth eq_refl) | split].
  - exact (Harg eq_refl).
  - exact (Hrecv eq_refl).
Defined.

(* ===================================================================== *)
(** ** The fatal paths *)
(* ===================================================================== *)

Lemma matches_cat (r1 r2 : regex) (s1 s2 : string) :
  matches r1 s1 -> matches r2 s2 -> matches (re_cat r1 r2) (s1 ++ s2).
Proof. intros H1 H2. exists s1, s2. auto. Qed.

Lemma partial_match_intro (r : regex) (before mid after s : string) :
  s = before ++ mid ++ after -> matches r mid -> partial_match r s.
Proof. intros Hs Hm. exists before, mid, after. auto. Qed.

Ltac match_segments :=
  repeat (apply matches_cat; [first [reflexivity | exact I] |]);
  first [reflexivity | exact I].

(** Whatever the call site, the diagnostic of [unwrap] on an empty Option
    matches the pattern of the death test. *)
Lemma unwrap_diagnostic_matches (loc : source_location) :
  partial_match unwrap_none_pattern
    (diagnostic loc "called `Option::unwrap()` on a `None` value").
Proof.
  apply partial_match_intro with
    (before := EmptyString)
    (mid := "panicked at "
            ++ (file_name loc ++ ":"
                ++ NilZero.string_of_uint (N.to_uint (line loc)))
            ++ (LF ++ "called ") ++ "`Option::" ++ "unwrap" ++ "()`"
            ++ " on a " ++ "`" ++ "None" ++ "`" ++ " value")
    (after := LF).
  - unfold diagnostic. rewrite !append_assoc. reflexivity.
  - unfold unwrap_none_pattern, re_seq. match_segments.
Qed.


Section Fatal.
Context {TY : Types}.

Lemma Option_unwrap_some {T : ty} (o : Option T) (loc : source_location) :
  Option.is_some o = true ->
  exists v, o = Some v /\ Option.unwrap o loc = Returned v.
Proof.
  intros H. destruct (is_some_inv _ H) as [_ [v Hv]]. exists v.
  split; [exact Hv |]. unfold Option.unwrap. rewrite H. now subst o.
Qed.

Lemma Option_unwrap_none {T : ty} (o : Option T) (loc : source_location) :
  Option.is_none o = true ->
  Option.unwrap o loc
  = Aborted (diagnostic loc "called `Option::unwrap()` on a `None` value").
Proof.
  intros H. unfold Option.unwrap. rewrite (is_none_not_some _ H).
  rewrite panic_impl_diagnostic.
  now rewrite c_str_diagnostic_nul_free by reflexivity.
Qed.

Lemma is_ok_inv {T E : ty} (r : Result T E) :
  Result.is_ok r = true -> exists v, r = Ok v.
Proof. destruct r as [v | e]; [now exists v | discriminate]. Qed.

Lemma is_err_inv {T E : ty} (r : Result T E) :
  Result.is_err r = true -> exists e, r = Err e.
Proof. destruct r as [v | e]; [discriminate | now exists e]. Qed.


Lemma Result_expect_err {T E : ty} {TS : ToString E} (e : val E)
    (msg : string) (loc : source_location) :
  Result.expect (@Err _ T E e) msg loc
  = Aborted (c_str (diagnostic loc (msg ++ ": " ++ to_string e))).
Proof.
  unfold Result.expect. simpl. rewrite panic_impl_diagnostic.
  now rewrite format_message_and_payload.
Qed.

Lemma nul_free_message_and_payload (msg s : string) :
  nul_free msg = true -> nul_free s = true ->
  nul_free (msg ++ ": " ++ s) = true.
Proof.
  intros Hm Hs. rewrite nul_free_append, Hm. simpl. exact Hs.
Qed.

End Fatal.

(** C6.  [unwrap] on an occupied Option returns the payload it holds; on an
    empty Option it aborts, and what it wrote is [panicked at], the
    caller's file, a colon and the caller's line, then on the next line
    [called `Option::unwrap()` on a `None` value], which the pattern
    [panicked at .*\ncalled .*unwrap.* on a .*None.* value] matches. *)
Theorem Option_unwrap_fatal_path {TY : Types} (T : ty) (o : Option T)
    (loc : source_location) :
  (Option.is_some o = true ->
     exists v, o = Some v /\ Option.unwrap o loc = Returned v)
  /\ (Option.is_none o = true ->
        Option.unwrap o loc
        = Aborted
            ("panicked at " ++ file_name loc ++ ":"
             ++ NilZero.string_of_uint (N.to_uint (line loc)) ++ LF
             ++ "called `Option::unwrap()` on a `None` value" ++ LF)
        /\ exists m, Option.unwrap o loc = Aborted m
                     /\ partial_match unwrap_none_pattern m).
Proof.
  split.
  - apply Option_unwrap_some.
  - intros H. pose proof (Option_unwrap_none o loc H) as Hu. split.
    + exact Hu.
    + eexists. split; [exact Hu | apply unwrap_diagnostic_matches].
Qed.

(** [Some(71).unwrap()] and [None().unwrap()] at line 95 of the test file. *)
Lemma Option_unwrap_fatal_path_witness :
  Option.unwrap (Some (T := t_int) 71%Z) option_test_95 = Returned 71%Z
  /\ Option.unwrap (None (T := t_monostate)) option_test_95
     = Aborted
         ("panicked at tests/option_test.cpp:95" ++ LF
          ++ "called `Option::unwrap()` on a `None` value" ++ LF).
Proof.
  split.
  - destruct (proj1 (Option_unwrap_fatal_path (TY := test_types) t_int
                       (@Some test_types t_int 71%Z) option_test_95) eq_refl)
      as (v & Hv & ->).
    injection Hv as <-. reflexivity.
  - exact (proj1 (proj2 (Option_unwrap_fatal_path (TY := test_types)
                           t_monostate (@None test_types t_monostate)
                           option_test_95) eq_refl)).
Defined.




(* ===================================================================== *)
(** ** Between Option and Result *)
(* ===================================================================== *)

Section Conversions.
Context {TY : Types}.

Lemma ok_or_some {T E : ty} (distinct : is_same T E = false) (x : val T)
    (e : val E) :
  T <> monostate -> Option.ok_or distinct (Some x) e = Returned (Ok x).
Proof.
  intros HT. unfold Option.ok_or, Option.is_none, Some, Option.holding.
  now rewrite (is_some_engaged x HT).
Qed.

Lemma ok_or_none {T E : ty} (distinct : is_same T E = false) (o : Option T)
    (e : val E) :
  Option.is_none o = true -> Option.ok_or distinct o e = Returned (Err e).
Proof. intros H. unfold Option.ok_or. now rewrite H. Qed.

Lemma ok_or_else_none {St : Type} {T E : ty} (distinct : is_same T E = false)
    (o : Option T) (f : unit -> eff St (val E)) (s s' : St) (e : val E) :
  Option.is_none o = true -> f tt s = (Returned e, s') ->
  Option.ok_or_else distinct o f s = (Returned (Err e), s').
Proof. intros H Hf. unfold Option.ok_or_else. rewrite H. simpl. now rewrite Hf. Qed.

Lemma ok_or_else_some {St : Type} {T E : ty} (distinct : is_same T E = false)
    (x : val T) (f : unit -> eff St (val E)) (s : St) :
  T <> monostate ->
  Option.ok_or_else distinct (Some x) f s = (Returned (Ok x), s).
Proof.
  intros HT. unfold Option.ok_or_else, Option.is_none, Some, Option.holding.
  now rewrite (is_some_engaged x HT).
Qed.

Lemma Result_ok_Ok {T E : ty} (v : val T) :
  Result.ok (@Ok _ T E v) = Returned (Some v).
Proof. reflexivity. Qed.

Lemma Result_ok_Err {T E : ty} (e : val E) :
  Result.ok (@Err _ T E e) = Returned None.
Proof. reflexivity. Qed.

Lemma Result_err_Err {T E : ty} (e : val E) :
  Result.err (@Err _ T E e) = Returned (Some e).
Proof. reflexivity. Qed.

Lemma Result_err_Ok {T E : ty} (v : val T) :
  Result.err (@Ok _ T E v) = Returned None.
Proof. reflexivity. Qed.

Lemma is_err_negb_is_ok {T E : ty} (r : Result T E) :
  Result.is_err r = negb (Result.is_ok r).
Proof. now destruct r. Qed.

End Conversions.

(** The claim C4 as it is written fails for a payload of the marker type:
    [Some(std::monostate{})] is an empty Option, so [ok_or(0)] on it is
    [Err(0)], which is not [Ok(std::monostate{})], neither as a value nor
    by [Result::operator==]. *)
Lemma ok_or_of_marker_payload_is_Err :
  Option.ok_or (T := t_monostate) (E := t_int) eq_refl
    (Some (T := t_monostate) tt) 0%Z
  = Returned (@Err test_types t_monostate t_int 0%Z)
  /\ Option.ok_or (T := t_monostate) (E := t_int) eq_refl
       (Some (T := t_monostate) tt) 0%Z
     <> Returned (@Ok test_types t_monostate t_int tt)
  /\ (r <- Option.ok_or (T := t_monostate) (E := t_int) eq_refl
             (Some (T := t_monostate) tt) 0%Z ;;
      Result.operator_eq r (@Ok test_types t_monostate t_int tt))
     = Returned false
  /\ ~ (forall (TY : Types) (T E : ty) (distinct : is_same T E = false)
          (x : val T) (e : val E),
          Option.ok_or distinct (Some x) e = Returned (Ok x)).
Proof.
  split; [reflexivity | split; [| split; [reflexivity |]]].
  - intros H. discriminate H.
  - intros H.
    specialize (H test_types t_monostate t_int eq_refl tt 0%Z).
    discriminate H.
Qed.

(** C4, amended.  For a payload type that is not the untyped marker,
    [Some(x).ok_or(e)] is [Ok(x)] and so [Some(x).ok_or(e).ok()] is
    [Some(x)].  For every payload type, [ok_or(e)] on an empty Option is
    [Err(e)] and [ok_or_else(f)] is [Err] of what [f] returns; for these
    [T] and [E] are distinct types, as they are wherever [ok_or] compiles.
    [Result::ok] turns [Ok(v)] into [Some(v)] and an [Err] into an empty
    Option for every pair of types, equal ones included. *)
Theorem Option_Result_round_trip {TY : Types} (T E : ty) (x : val T)
    (e : val E) :
  (forall distinct : is_same T E = false,
     (T <> monostate ->
        Option.ok_or distinct (Some x) e = Returned (Ok x)
        /\ (r <- Option.ok_or distinct (Some x) e ;; Result.ok r)
           = Returned (Some x))
     /\ (forall o : Option T, Option.is_none o = true ->
           Option.ok_or distinct o e = Returned (Err e))
     /\ (forall (St : Type) (o : Option T) (f : unit -> eff St (val E))
           (s s' : St) (e' : val E),
           Option.is_none o = true -> f tt s = (Returned e', s') ->
           Option.ok_or_else distinct o f s = (Returned (Err e'), s')))
  /\ Result.ok (@Ok _ T E x) = Returned (Some x)
  /\ Result.ok (@Err _ T E e) = Returned None.
Proof.
  split; [| split].
  - intros distinct. split; [| split].
    + intros HT. rewrite (ok_or_some distinct x e HT). split; reflexivity.
    + intros o. apply ok_or_none.
    + intros St o f s s' e'. apply ok_or_else_none.
  - apply Result_ok_Ok.
  - apply Result_ok_Err.
Qed.

(** [Some("foo").ok_or(0)], its [.ok()], [None<const char *>().ok_or(0)],
    and [Ok<int, int>(7).ok()]. *)
Lemma Option_Result_round_trip_witness :
  Option.ok_or (T := t_const_char_ptr) (E := t_int) eq_refl
    (Some (T := t_const_char_ptr) "foo") 0%Z
  = Returned (@Ok test_types t_const_char_ptr t_int "foo")
  /\ (r <- Option.ok_or (T := t_const_char_ptr) (E := t_int) eq_refl
             (Some (T := t_const_char_ptr) "foo") 0%Z ;;
      Result.ok r)
     = Returned (Some (T := t_const_char_ptr) "foo")
  /\ Option.ok_or (T := t_const_char_ptr) (E := t_int) eq_refl
       (None (T := t_const_char_ptr)) 0%Z
     = Returned (@Err test_types t_const_char_ptr t_int 0%Z)
  /\ Result.ok (@Ok test_types t_int t_int 7%Z)
     = Returned (Some (T := t_int) 7%Z).
Proof.
  destruct (Option_Result_round_trip (TY := test_types) t_const_char_ptr t_int
              "foo" 0%Z) as (Hok_or & _).
  destruct (Hok_or eq_refl) as (Hsome & Hnone & _).
  assert (Hne : t_const_char_ptr <> @monostate test_types)
    by (intros H; discriminate H).
  destruct (Hsome Hne) as [H1 H2].
  split; [exact H1 | split; [exact H2 | split]].
  - exact (Hnone (@None test_types t_const_char_ptr) eq_refl).
  - exact (proj1 (proj2 (Option_Result_round_trip (TY := test_types) t_int
                           t_int 7%Z 7%Z))).
Defined.

(* ===================================================================== *)
(** ** map and map_err on a Result *)
(* ===================================================================== *)

(** C5.  [map] runs its closure on an Ok payload and wraps what it returns;
    it hands an Err payload on unchanged and leaves the captured state
    alone.  [map_err] does the reverse: an Ok payload is handed on
    unchanged with the captured state alone, and the closure runs on an
    Err payload.  [U] and [E] are distinct types, as they are wherever
    [map] compiles. *)
Theorem Result_map_map_err_pass_through {TY : Types} (St : Type)
    (T E U F : ty) (distinct : is_same U E = false)
    (f : val T -> eff St (val U)) (op : val E -> eff St (val F)) (s : St) :
  (forall (v : val T) (u : val U) (s' : St), f v s = (Returned u, s') ->
     Result.map distinct (@Ok _ T E v) f s = (Returned (Ok u), s'))
  /\ (forall e : val E,
        Result.map distinct (@Err _ T E e) f s = (Returned (Err e), s))
  /\ (forall v : val T,
        Result.map_err (@Ok _ T E v) op s = (Returned (Ok v), s))
  /\ (forall (e : val E) (x : val F) (s' : St), op e s = (Returned x, s') ->
        Result.map_err (@Err _ T E e) op s = (Returned (Err x), s')).
Proof.
  split; [| split; [| split]].
  - intros v u s' Hf. unfold Result.map. simpl. now rewrite Hf.
  - reflexivity.
  - reflexivity.
  - intros e x s' Hop. unfold Result.map_err. simpl. now rewrite Hop.
Qed.

(** [Ok<int, int>(2).map_err(stringify) == Ok<int, std::string>(2)] and
    [Err<int, int>(13).map_err(stringify) == Err("error code: 13")]. *)
Lemma Result_map_map_err_pass_through_witness :
  Result.map_err (F := t_std_string) (@Ok test_types t_int t_int 2%Z)
    stringify tt
  = (Returned (@Ok test_types t_int t_std_string 2%Z), tt)
  /\ Result.map_err (F := t_std_string) (@Err test_types t_int t_int 13%Z)
       stringify tt
     = (Returned (@Err test_types t_int t_std_string "error code: 13"), tt).
Proof.
  destruct (Result_map_map_err_pass_through (TY := test_types) unit
              t_int t_int t_std_string t_std_string eq_refl
              (fun _ => ret EmptyString) stringify tt) as (_ & _ & Hok & Herr).
  split.
  - exact (Hok 2%Z).
  - exact (Herr 13%Z "error code: 13" tt eq_refl).
Defined.

(* ===================================================================== *)
(** ** The two states of a Result *)
(* ===================================================================== *)

(** The claim C10 as it is written fails for a Result whose success type is
    the marker: [Ok<std::monostate, int>(std::monostate{})] is Ok, and its
    [ok()] holds the payload but does not report a value. *)
Lemma ok_of_marker_Result_reports_empty :
  Result.is_ok (@Ok test_types t_monostate t_int tt) = true
  /\ Result.ok (@Ok test_types t_monostate t_int tt)
     = Returned (Some (T := t_monostate) tt)
  /\ Option.is_some (Some (T := t_monostate) tt) = false
  /\ Option.is_none (Some (T := t_monostate) tt) = true
  /\ ~ (forall (TY : Types) (T E : ty) (r : Result T E) (o : Option T),
          Result.ok r = Returned o -> Option.is_some o = Result.is_ok r).
Proof.
  split; [reflexivity | split; [reflexivity | split; [reflexivity | split]]].
  - reflexivity.
  - intros H.
    specialize (H test_types t_monostate t_int
                  (@Ok test_types t_monostate t_int tt) _ eq_refl).
    discriminate H.
Qed.

(** C10, amended.  [is_ok] and [is_err] are each other's negation.  [ok()]
    returns an Option that holds the [T] exactly when the Result is Ok, and
    [err()] one that holds the [E] exactly when it is Err; that Option
    reports a value through [is_some] exactly then, provided its payload
    type is not the untyped marker. *)
Theorem Result_exactly_one_state {TY : Types} (T E : ty) (r : Result T E) :
  Result.is_err r = negb (Result.is_ok r)
  /\ exists (o : Option T) (o' : Option E),
       Result.ok r = Returned o
       /\ Result.err r = Returned o'
       /\ has_value o = Result.is_ok r
       /\ has_value o' = Result.is_err r
       /\ (forall v : val T, r = Ok v -> o = Some v)
       /\ (forall e : val E, r = Err e -> o' = Some e)
       /\ (T <> monostate -> Option.is_some o = Result.is_ok r)
       /\ (E <> monostate -> Option.is_some o' = Result.is_err r).
Proof.
  split; [apply is_err_negb_is_ok |].
  destruct r as [v | e].
  - exists (Some v), None. repeat split.
    + now intros v' [= ->].
    + intros e [=].
    + intros HT. now apply is_some_engaged.
    + intros _. apply empty_is_some.
  - exists None, (Some e). repeat split.
    + intros v [=].
    + now intros e' [= ->].
    + intros _. apply empty_is_some.
    + intros HE. now apply is_some_engaged.
Qed.

(** [Ok<int, const char *>(2)] and [Err<int, const char *>("Nothing here")]. *)
Lemma Result_exactly_one_state_witness :
  (Result.is_ok (@Ok test_types t_int t_const_char_ptr 2%Z) = true
   /\ Result.is_err (@Ok test_types t_int t_const_char_ptr 2%Z) = false
   /\ exists o, Result.ok (@Ok test_types t_int t_const_char_ptr 2%Z)
                = Returned o /\ Option.is_some o = true)
  /\ (Result.is_ok (@Err test_types t_int t_const_char_ptr "Nothing here")
      = false
      /\ exists o', Result.err
                      (@Err test_types t_int t_const_char_ptr "Nothing here")
                    = Returned o' /\ Option.is_some o' = true).
Proof.
  assert (Hint : t_int <> @monostate test_types) by (intros H; discriminate H).
  assert (Hptr : t_const_char_ptr <> @monostate test_types)
    by (intros H; discriminate H).
  split.
  - destruct (Result_exactly_one_state (TY := test_types) t_int
                t_const_char_ptr (@Ok test_types t_int t_const_char_ptr 2%Z))
      as (Hneg & o & o' & Ho & _ & _ & _ & _ & _ & Hsome & _).
    split; [reflexivity | split; [exact Hneg |]].
    exists o. split; [exact Ho | exact (Hsome Hint)].
  - destruct (Result_exactly_one_state (TY := test_types) t_int
                t_const_char_ptr
                (@Err test_types t_int t_const_char_ptr "Nothing here"))
      as (_ & o & o' & _ & Ho' & _ & _ & _ & _ & _ & Hsome').
    split; [reflexivity |].
    exists o'. split; [exact Ho' | exact (Hsome' Hptr)].
Defined.

(* ===================================================================== *)
(** ** The other fatal paths *)
(* ===================================================================== *)

Lemma format_unwrap_on_Err (s : string) :
  format "called `Result::unwrap()` on an `Err` value: {}" [arg_string s]
  = "called `Result::unwrap()` on an `Err` value: " ++ s.
Proof. simpl. now rewrite append_nil_r. Qed.

Lemma format_unwrap_err_on_Ok (s : string) :
  format "called `Result::unwrap_err()` on an `Ok` value: {}" [arg_string s]
  = "called `Result::unwrap_err()` on an `Ok` value: " ++ s.
Proof. simpl. now rewrite append_nil_r. Qed.

Section OtherFatal.
Context {TY : Types}.

Lemma Option_expect_none {T : ty} (o : Option T) (msg : string)
    (loc : source_location) :
  Option.is_none o = true ->
  Option.expect o msg loc = Aborted (c_str (diagnostic loc msg)).
Proof.
  intros H. unfold Option.expect. rewrite (is_none_not_some _ H).
  rewrite panic_impl_diagnostic. now rewrite format_one_field.
Qed.

Lemma Result_unwrap_err_value {T E : ty} {TS : ToString E} (e : val E)
    (loc : source_location) :
  Result.unwrap (@Err _ T E e) loc
  = Aborted (c_str (diagnostic loc
               ("called `Result::unwrap()` on an `Err` value: "
                ++ to_string e))).
Proof.
  unfold Result.unwrap. simpl. rewrite panic_impl_diagnostic.
  now rewrite format_unwrap_on_Err.
Qed.

Lemma Result_expect_err_ok_value {T E : ty} {TS : ToString T} (v : val T)
    (msg : string) (loc : source_location) :
  Result.expect_err (@Ok _ T E v) msg loc
  = Aborted (c_str (diagnostic loc (msg ++ ": " ++ to_string v))).
Proof.
  unfold Result.expect_err. simpl. rewrite panic_impl_diagnostic.
  now rewrite format_message_and_payload.
Qed.

Lemma Result_unwrap_err_ok_value {T E : ty} {TS : ToString T} (v : val T)
    (loc : source_location) :
  Result.unwrap_err (@Ok _ T E v) loc
  = Aborted (c_str (diagnostic loc
               ("called `Result::unwrap_err()` on an `Ok` value: "
                ++ to_string v))).
Proof.
  unfold Result.unwrap_err. simpl. rewrite panic_impl_diagnostic.
  now rewrite format_unwrap_err_on_Ok.
Qed.

End OtherFatal.

(** X1.  [Option::expect] returns the payload of an occupied Option; on an
    empty one it aborts: the first line, with the call site, is written
    whole, and the second line is the caller's message written as a C
    string, so it ends before the first NUL byte of the message if there
    is one.  A message without NUL bytes is written as it is, braces
    included: the message is an argument of the format string, not the
    format string. *)
Theorem Option_expect_fatal_path {TY : Types} (T : ty) (o : Option T)
    (msg : string) (loc : source_location) :
  (Option.is_some o = true ->
     exists v, o = Some v /\ Option.expect o msg loc = Returned v)
  /\ (Option.is_none o = true ->
        Option.expect o msg loc
        = Aborted
            ("panicked at " ++ file_name loc ++ ":"
             ++ NilZero.string_of_uint (N.to_uint (line loc)) ++ LF
             ++ c_str (msg ++ LF))
        /\ (nul_free msg = true ->
            Option.expect o msg loc
            = Aborted
                ("panicked at " ++ file_name loc ++ ":"
                 ++ NilZero.string_of_uint (N.to_uint (line loc)) ++ LF
                 ++ msg ++ LF))).
Proof.
  split; intros H.
  - destruct (is_some_inv _ H) as [_ [v Hv]]. exists v.
    split; [exact Hv |]. unfold Option.expect. rewrite H. now subst o.
  - rewrite (Option_expect_none o msg loc H). split.
    + now rewrite c_str_diagnostic.
    + intros Hm. now rewrite (c_str_diagnostic_nul_free loc msg Hm).
Qed.

(** [Some("foo").expect("a message")], [None().expect("{} of {}")], and
    [None().expect] with a message of the three bytes [a], NUL, [b]. *)
Lemma Option_expect_fatal_path_witness :
  Option.expect (Some (T := t_const_char_ptr) "foo") "a message"
    option_test_95 = Returned "foo"
  /\ Option.expect (None (T := t_monostate)) "{} of {}" option_test_95
     = Aborted ("panicked at tests/option_test.cpp:95" ++ LF
                ++ "{} of {}" ++ LF)
  /\ Option.expect (None (T := t_monostate)) ("a" ++ NUL ++ "b")
       option_test_95
     = Aborted ("panicked at tests/option_test.cpp:95" ++ LF ++ "a").
Proof.
  split; [| split].
  - destruct (proj1 (Option_expect_fatal_path (TY := test_types)
                       t_const_char_ptr
                       (@Some test_types t_const_char_ptr "foo")
                       "a message" option_test_95) eq_refl)
      as (v & Hv & ->).
    injection Hv as <-. reflexivity.
  - exact (proj2 (proj2 (Option_expect_fatal_path (TY := test_types)
                           t_monostate (@None test_types t_monostate)
                           "{} of {}" option_test_95) eq_refl) eq_refl).
  - exact (proj1 (proj2 (Option_expect_fatal_path (TY := test_types)
                           t_monostate (@None test_types t_monostate)
                           ("a" ++ NUL ++ "b") option_test_95) eq_refl)).
Defined.

(** X2.  [Result::unwrap] returns the value of an Ok Result; on an Err it
    aborts after writing the call site and, on the next line as a C
    string, [called `Result::unwrap()` on an `Err` value: ] followed by
    the [std::to_string] of the error: the line ends before the first NUL
    byte of that text if there is one, and is written whole otherwise. *)
Theorem Result_unwrap_fatal_path {TY : Types} (T E : ty) (TS : ToString E)
    (r : Result T E) (loc : source_location) :
  (Result.is_ok r = true ->
     exists v, r = Ok v /\ Result.unwrap r loc = Returned v)
  /\ (Result.is_err r = true ->
        exists e, r = Err e
          /\ Result.unwrap r loc
             = Aborted
                 ("panicked at " ++ file_name loc ++ ":"
                  ++ NilZero.string_of_uint (N.to_uint (line loc)) ++ LF
                  ++ "called `Result::unwrap()` on an `Err` value: "
                  ++ c_str (to_string e ++ LF))
          /\ (nul_free (to_string e) = true ->
              Result.unwrap r loc
              = Aborted
                  ("panicked at " ++ file_name loc ++ ":"
                   ++ NilZero.string_of_uint (N.to_uint (line loc)) ++ LF
                   ++ ("called `Result::unwrap()` on an `Err` value: "
                       ++ to_string e) ++ LF))).
Proof.
  split; intros H.
  - destruct (is_ok_inv r H) as [v ->]. exists v. split; reflexivity.
  - destruct (is_err_inv r H) as [e ->]. exists e.
    split; [reflexivity |]. rewrite Result_unwrap_err_value. split.
    + rewrite c_str_diagnostic, append_assoc.
      now rewrite c_str_append by reflexivity.
    + intros He. rewrite c_str_diagnostic_nul_free; [reflexivity |].
      rewrite nul_free_append. exact He.
Qed.

(** [Err<int, int>(17).unwrap()] at line 203 of the test file. *)
Lemma Result_unwrap_fatal_path_witness :
  Result.unwrap (E := t_int) (@Err test_types t_int t_int 17%Z)
    result_test_203
  = Aborted ("panicked at tests/result_test.cpp:203" ++ LF
             ++ "called `Result::unwrap()` on an `Err` value: 17" ++ LF).
Proof.
  destruct (proj2 (Result_unwrap_fatal_path (TY := test_types) t_int t_int
                     ToString_int (@Err test_types t_int t_int 17%Z)
                     result_test_203) eq_refl)
    as (e & He & _ & Hfull).
  injection He as <-. exact (Hfull eq_refl).
Defined.

(** X3.  [expect_err] and [unwrap_err] return the error of an Err Result;
    on an Ok Result they abort, and the second line of the diagnostic,
    written as a C string, embeds the [std::to_string] of the Ok value:
    after the caller's message and a colon for [expect_err], after
    [called `Result::unwrap_err()` on an `Ok` value: ] for [unwrap_err].
    The line ends before its first NUL byte if it has one; for a message
    and a value text without NUL bytes it is written whole. *)
Theorem Result_expect_err_fatal_path {TY : Types} (T E : ty)
    (TS : ToString T) (r : Result T E) (msg : string)
    (loc : source_location) :
  (Result.is_err r = true ->
     exists e, r = Err e
       /\ Result.expect_err r msg loc = Returned e
       /\ Result.unwrap_err r loc = Returned e)
  /\ (Result.is_ok r = true ->
        exists v, r = Ok v
          /\ Result.expect_err r msg loc
             = Aborted
                 ("panicked at " ++ file_name loc ++ ":"
                  ++ NilZero.string_of_uint (N.to_uint (line loc)) ++ LF
                  ++ c_str ((msg ++ ": " ++ to_string v) ++ LF))
          /\ Result.unwrap_err r loc
             = Aborted
                 ("panicked at " ++ file_name loc ++ ":"
                  ++ NilZero.string_of_uint (N.to_uint (line loc)) ++ LF
                  ++ "called `Result::unwrap_err()` on an `Ok` value: "
                  ++ c_str (to_string v ++ LF))
          /\ (nul_free msg = true -> nul_free (to_string v) = true ->
              Result.expect_err r msg loc
              = Aborted
                  ("panicked at " ++ file_name loc ++ ":"
                   ++ NilZero.string_of_uint (N.to_uint (line loc)) ++ LF
                   ++ (msg ++ ": " ++ to_string v) ++ LF))
          /\ (nul_free (to_string v) = true ->
              Result.unwrap_err r loc
              = Aborted
                  ("panicked at " ++ file_name loc ++ ":"
                   ++ NilZero.string_of_uint (N.to_uint (line loc)) ++ LF
                   ++ ("called `Result::unwrap_err()` on an `Ok` value: "
                       ++ to_string v) ++ LF))).
Proof.
  split; intros H.
  - destruct (is_err_inv r H) as [e ->]. exists e. repeat split.
  - destruct (is_ok_inv r H) as [v ->]. exists v.
    split; [reflexivity |].
    rewrite Result_expect_err_ok_value, Result_unwrap_err_ok_value.
    split; [| split; [| split]].
    + now rewrite c_str_diagnostic.
    + rewrite c_str_diagnostic, append_assoc.
      now rewrite c_str_append by reflexivity.
    + intros Hm Hv.
      now rewrite (c_str_diagnostic_nul_free loc _
                     (nul_free_message_and_payload _ _ Hm Hv)).
    + intros Hv. rewrite c_str_diagnostic_nul_free; [reflexivity |].
      rewrite nul_free_append. exact Hv.
Qed.

(** [Ok<int, int>(1).expect_err("message")] and [Err<int, int>(-1).expect_err]. *)
Lemma Result_expect_err_fatal_path_witness :
  Result.expect_err (T := t_int) (@Ok test_types t_int t_int 1%Z) "message"
    result_test_203
  = Aborted ("panicked at tests/result_test.cpp:203" ++ LF
             ++ "message: 1" ++ LF)
  /\ Result.expect_err (T := t_int) (@Err test_types t_int t_int (-1)%Z)
       "a message" result_test_203
     = Returned (-1)%Z.
Proof.
  split.
  - destruct (proj2 (Result_expect_err_fatal_path (TY := test_types) t_int
                       t_int ToString_int (@Ok test_types t_int t_int 1%Z)
                       "message" result_test_203) eq_refl)
      as (v & Hv & _ & _ & Hfull & _).
    injection Hv as <-. exact (Hfull eq_refl eq_refl).
  - destruct (proj1 (Result_expect_err_fatal_path (TY := test_types) t_int
                       t_int ToString_int
                       (@Err test_types t_int t_int (-1)%Z)
                       "a message" result_test_203) eq_refl)
      as (e & He & -> & _).
    injection He as <-. reflexivity.
Defined.

(** X4.  Of [unwrap] and [unwrap_err] on one Result exactly one returns and
    the other aborts, and the same holds of [expect] and [expect_err];
    none of the four throws. *)
Theorem Result_unwrap_complementary {TY : Types} (T E : ty)
    (TT : ToString T) (TE : ToString E) (r : Result T E) (msg msg' : string)
    (loc loc' : source_location) :
  ((exists v m, Result.unwrap r loc = Returned v
                /\ Result.unwrap_err r loc' = Aborted m)
   \/ (exists e m, Result.unwrap_err r loc' = Returned e
                   /\ Result.unwrap r loc = Aborted m))
  /\ ((exists v m, Result.expect r msg loc = Returned v
                   /\ Result.expect_err r msg' loc' = Aborted m)
      \/ (exists e m, Result.expect_err r msg' loc' = Returned e
                      /\ Result.expect r msg loc = Aborted m)).
Proof.
  destruct r as [v | e]; split.
  - left. exists v. eexists. split; [reflexivity |].
    apply Result_unwrap_err_ok_value.
  - left. exists v. eexists. split; [reflexivity |].
    apply Result_expect_err_ok_value.
  - right. exists e. eexists. split; [reflexivity |].
    apply Result_unwrap_err_value.
  - right. exists e. eexists. split; [reflexivity |].
    apply Result_expect_err.
Qed.

(* ===================================================================== *)
(** ** Defaults and alternatives of an Option *)
(* ===================================================================== *)

Section OptionDefaults.
Context {TY : Types}.

Lemma is_none_of_not_some {T : ty} (o : Option T) :
  Option.is_some o = false -> Option.is_none o = true.
Proof. unfold Option.is_none. now intros ->. Qed.

Lemma or_b_is_some {T : ty} (a b : Option T) :
  Option.is_some (Option.or_b a b)
  = Option.is_some a || Option.is_some b.
Proof.
  unfold Option.or_b.
  destruct (Option.is_some a) eqn:Ha; rewrite copy_is_some;
    [exact Ha | reflexivity].
Qed.

Lemma and_b_is_some {T U : ty} (a : Option T) (b : Option U) :
  Option.is_some (Option.and_b a b)
  = Option.is_some a && Option.is_some b.
Proof.
  unfold Option.and_b, Option.is_none.
  destruct (Option.is_some a); [apply copy_is_some | apply empty_is_some].
Qed.

End OptionDefaults.

(** X5.  [unwrap_or], [unwrap_or_default] and [unwrap_or_else] never abort
    or throw by themselves: on an occupied Option they return the payload,
    and [unwrap_or_else] does not call its closure; on an empty Option they
    return the given default, the value-initialized [T{}], and what the
    closure returns.  Whenever [unwrap] returns a value, [unwrap_or]
    returns the same one, and [unwrap_or_else] with a closure that only
    returns [def] is [unwrap_or(def)]. *)
Theorem Option_unwrap_or_family {TY : Types} (St : Type) (T : ty)
    (D : DefaultInitializable T) (o : Option T) (def : val T)
    (f : unit -> eff St (val T)) (s : St) :
  (Option.is_some o = true ->
     exists v, o = Some v
       /\ Option.unwrap_or o def = Returned v
       /\ Option.unwrap_or_default o = Returned v
       /\ Option.unwrap_or_else o f s = (Returned v, s))
  /\ (Option.is_none o = true ->
        Option.unwrap_or o def = Returned def
        /\ Option.unwrap_or_default o = Returned value_initialized
        /\ Option.unwrap_or_else o f s = f tt s)
  /\ (forall (loc : source_location) (v : val T),
        Option.unwrap o loc = Returned v ->
        Option.unwrap_or o def = Returned v)
  /\ Option.unwrap_or_else o (fun _ => ret def) s
     = lift (Option.unwrap_or o def) s.
Proof.
  split; [| split; [| split]].
  - intros H. destruct (is_some_inv _ H) as [_ [v ->]]. exists v.
    unfold Option.unwrap_or, Option.unwrap_or_default, Option.unwrap_or_else.
    rewrite H. repeat split.
  - intros H. pose proof (is_none_not_some _ H) as H'.
    unfold Option.unwrap_or, Option.unwrap_or_default, Option.unwrap_or_else.
    rewrite H'. repeat split.
  - intros loc v. unfold Option.unwrap, Option.unwrap_or.
    destruct (Option.is_some o); [trivial | discriminate].
  - unfold Option.unwrap_or_else, Option.unwrap_or.
    destruct (Option.is_some o); reflexivity.
Qed.

(** [Some(12).unwrap_or_default()], [None<int>().unwrap_or_default()] and
    [None<int>().unwrap_or(5)]. *)
Lemma Option_unwrap_or_family_witness :
  Option.unwrap_or_default (T := t_int) (Some (T := t_int) 12%Z)
  = Returned 12%Z
  /\ Option.unwrap_or_default (T := t_int) (None (T := t_int))
     = Returned 0%Z
  /\ Option.unwrap_or (None (T := t_int)) 5%Z = Returned 5%Z.
Proof.
  destruct (Option_unwrap_or_family (TY := test_types) unit t_int
              DefaultInitializable_int (@Some test_types t_int 12%Z) 5%Z
              (fun _ => ret 5%Z) tt) as (Hs & _).
  destruct (Option_unwrap_or_family (TY := test_types) unit t_int
              DefaultInitializable_int (@None test_types t_int) 5%Z
              (fun _ => ret 5%Z) tt) as (_ & Hn & _).
  destruct (Hs eq_refl) as (v & Hv & _ & Hd & _).
  destruct (Hn eq_refl) as (Hor & Hdef & _).
  injection Hv as <-.
  split; [exact Hd | split; [exact Hdef | exact Hor]].
Defined.

(** X6.  [or_b] keeps the receiver when it is occupied and otherwise is a
    copy of the argument: the argument itself whenever that one is
    occupied or is not of the marker type, and an empty Option for an
    argument of the marker type.  The result reports a value exactly when
    one of the two operands does.  With the untyped marker as argument
    the result is the receiver or empty, and with the marker as receiver
    it is a copy of the argument.  [or_else] does not call its closure on
    an occupied receiver, is what the closure returns otherwise, and with
    a closure that only returns a copy of [optb] it is [or_b(optb)]. *)
Theorem Option_or_b_or_else {TY : Types} (St : Type) (T U : ty)
    (a b : Option T) (m : Option monostate) (c : Option U)
    (f : unit -> eff St (Option T)) (g : unit -> eff St (Option U))
    (s : St) :
  (Option.is_some a = true ->
     Option.or_b a b = a /\ Option.or_b_none a m = a
     /\ Option.or_else a f s = (Returned a, s))
  /\ (Option.is_none a = true ->
        Option.or_b a b = Option.copy b
        /\ (Option.is_some b = true -> Option.or_b a b = b)
        /\ (T <> monostate -> Option.or_b a b = b)
        /\ (T = monostate -> Option.or_b a b = None)
        /\ Option.or_b_none a m = None
        /\ Option.or_else a f s = f tt s)
  /\ Option.is_some (Option.or_b a b)
     = Option.is_some a || Option.is_some b
  /\ Option.is_some (Option.or_b_none a m) = Option.is_some a
  /\ Option.or_b_monostate m c = Option.copy c
  /\ (U <> monostate -> Option.or_b_monostate m c = c)
  /\ Option.or_else_monostate m g s = g tt s
  /\ Option.or_else a (fun _ => ret (Option.copy b)) s
     = (Returned (Option.or_b a b), s).
Proof.
  split; [| split; [| split; [| split; [| split; [| split; [| split]]]]]].
  - intros H. unfold Option.or_b, Option.or_b_none, Option.or_else.
    rewrite H, (copy_occupied a H). repeat split.
  - intros H. pose proof (is_none_not_some _ H) as H'.
    unfold Option.or_b, Option.or_b_none, Option.or_else.
    rewrite H'. split; [reflexivity |].
    split; [apply copy_occupied |].
    split; [apply copy_not_marker |].
    split; [| split; reflexivity].
    intros ->. apply copy_marker.
  - apply or_b_is_some.
  - unfold Option.or_b_none.
    destruct (Option.is_some a) eqn:Ha;
      [now rewrite copy_is_some | apply empty_is_some].
  - reflexivity.
  - apply copy_not_marker.
  - reflexivity.
  - unfold Option.or_else, Option.or_b.
    destruct (Option.is_some a); reflexivity.
Qed.

(** [Some(2).or_b(Some(100))], [None<int>().or_b(Some(100))] and
    [Some(2).or_b(None())]. *)
Lemma Option_or_b_or_else_witness :
  Option.or_b (Some (T := t_int) 2%Z) (Some (T := t_int) 100%Z)
  = Some (T := t_int) 2%Z
  /\ Option.or_b (None (T := t_int)) (Some (T := t_int) 100%Z)
     = Some (T := t_int) 100%Z
  /\ Option.or_b_none (Some (T := t_int) 2%Z) (None (T := t_monostate))
     = Some (T := t_int) 2%Z.
Proof.
  destruct (Option_or_b_or_else (TY := test_types) unit t_int t_int
              (@Some test_types t_int 2%Z) (@Some test_types t_int 100%Z)
              (@None test_types t_monostate) (@None test_types t_int)
              (fun _ => ret (@None test_types t_int))
              (fun _ => ret (@None test_types t_int)) tt) as (Hs & _).
  destruct (Option_or_b_or_else (TY := test_types) unit t_int t_int
              (@None test_types t_int) (@Some test_types t_int 100%Z)
              (@None test_types t_monostate) (@None test_types t_int)
              (fun _ => ret (@None test_types t_int))
              (fun _ => ret (@None test_types t_int)) tt) as (_ & Hn & _).
  destruct (Hs eq_refl) as (H1 & H3 & _).
  destruct (Hn eq_refl) as (_ & H2 & _).
  split; [exact H1 | split; [exact (H2 eq_refl) | exact H3]].
Defined.

(** X7.  Occupancy under the three eager combinators is the boolean
    operation of their names: [and_b] reports a value exactly when both
    operands do, [or_b] when one of them does, [xor_b] when exactly one
    does, so that [xor_b] is occupied exactly when [or_b] is and [and_b]
    is not. *)
Theorem Option_eager_combinators_occupancy {TY : Types} (T : ty)
    (a b : Option T) :
  Option.is_some (Option.and_b a b)
    = Option.is_some a && Option.is_some b
  /\ Option.is_some (Option.or_b a b)
     = Option.is_some a || Option.is_some b
  /\ Option.is_some (Option.xor_b a b)
     = Option.is_some (Option.or_b a b)
       && negb (Option.is_some (Option.and_b a b)).
Proof.
  split; [apply and_b_is_some | split; [apply or_b_is_some |]].
  rewrite xor_b_is_some, or_b_is_some, and_b_is_some.
  destruct (Option.is_some a), (Option.is_some b); reflexivity.
Qed.

(* ===================================================================== *)
(** ** Predicates and maps over an Option *)
(* ===================================================================== *)

(** X8.  [filter] and [is_some_and] do not call the predicate on an empty
    Option, and call it once, on the payload, on an occupied one.
    [filter] keeps the payload, cast to the predicate's argument type,
    when the predicate returns true and is empty when it returns false;
    for a target type other than the marker its result reports a value
    exactly when [is_some_and] with the same predicate is true.  The
    specialization for the untyped marker returns empty without calling
    the predicate. *)
Theorem Option_filter_is_some_and {TY : Types} (St : Type) (T R : ty)
    (C : ConvertibleTo T R) (o : Option T) (p : val R -> eff St bool)
    (q : val T -> eff St bool) (s : St) :
  (Option.is_none o = true ->
     Option.filter o p s = (Returned None, s)
     /\ Option.is_some_and o q s = (Returned false, s))
  /\ (Option.is_some o = true ->
        exists v, o = Some v
          /\ Option.is_some_and o q s = q v s
          /\ (forall s' : St, p (convert v) s = (Returned true, s') ->
                Option.filter o p s = (Returned (Some (convert v)), s')
                /\ forall n : nat,
                     Option.filter o (counted p) (n, s)
                     = (Returned (Some (convert v)), (S n, s')))
          /\ (forall s' : St, p (convert v) s = (Returned false, s') ->
                Option.filter o p s = (Returned None, s')
                /\ forall n : nat,
                     Option.filter o (counted p) (n, s)
                     = (Returned None, (S n, s'))))
  /\ (R <> monostate ->
        (r <- Option.filter o p ;; ret (Option.is_some r)) s
        = Option.is_some_and o (fun v => p (convert v)) s)
  /\ (forall m : Option monostate,
        Option.filter_monostate m p s = (Returned None, s)).
Proof.
  split; [| split; [| split]].
  - intros H. pose proof (is_none_not_some _ H) as H'.
    unfold Option.filter, Option.is_some_and. rewrite H'. split; reflexivity.
  - intros H. destruct (is_some_inv _ H) as [_ [v ->]]. exists v.
    split; [reflexivity |].
    unfold Option.filter, Option.is_some_and. rewrite H. simpl.
    split; [reflexivity |].
    split; intros s' Hp; (split; [now rewrite Hp |]);
      intros n; unfold counted; simpl; now rewrite Hp.
  - intros HR. unfold Option.filter, Option.is_some_and.
    destruct (Option.is_some o) eqn:H.
    + destruct (is_some_inv _ H) as [_ [v ->]]. simpl.
      destruct (p (convert v) s) as [[[|] | e | msg] s']; simpl;
        try reflexivity.
      * unfold Option.holding. now rewrite (is_some_engaged _ HR).
      * now rewrite (@empty_is_some _ R).
    + simpl. now rewrite (@empty_is_some _ R).
  - reflexivity.
Qed.

(** [Some(4).filter(is_even)], [Some(3).filter(is_even)] and
    [None<int>().filter(is_even)]. *)
Lemma Option_filter_is_some_and_witness :
  Option.filter (T := t_int) (R := t_int) (Some (T := t_int) 4%Z)
    (fun x => ret (Z.even x)) tt
  = (Returned (Some (T := t_int) 4%Z), tt)
  /\ Option.filter (T := t_int) (R := t_int) (Some (T := t_int) 3%Z)
       (fun x => ret (Z.even x)) tt
     = (Returned None, tt)
  /\ Option.filter (T := t_int) (R := t_int) (None (T := t_int))
       (fun x => ret (Z.even x)) tt
     = (Returned None, tt).
Proof.
  destruct (Option_filter_is_some_and (TY := test_types) unit t_int t_int
              ConvertibleTo_int_int (@Some test_types t_int 4%Z)
              (fun x => ret (Z.even x)) (fun x => ret (Z.even x)) tt)
    as (_ & H4 & _).
  destruct (Option_filter_is_some_and (TY := test_types) unit t_int t_int
              ConvertibleTo_int_int (@Some test_types t_int 3%Z)
              (fun x => ret (Z.even x)) (fun x => ret (Z.even x)) tt)
    as (_ & H3 & _).
  destruct (Option_filter_is_some_and (TY := test_types) unit t_int t_int
              ConvertibleTo_int_int (@None test_types t_int)
              (fun x => ret (Z.even x)) (fun x => ret (Z.even x)) tt)
    as (Hn & _).
  destruct (H4 eq_refl) as (v4 & Hv4 & _ & Hkeep & _).
  destruct (H3 eq_refl) as (v3 & Hv3 & _ & _ & Hdrop).
  injection Hv4 as <-. injection Hv3 as <-.
  split; [exact (proj1 (Hkeep tt eq_refl)) | split].
  - exact (proj1 (Hdrop tt eq_refl)).
  - exact (proj1 (Hn eq_refl)).
Defined.

(** X9.  [map_or] and [map_or_else] run exactly one of their two arms: on
    an empty Option the default is returned, or the default closure run,
    and the mapping closure is not called; on an occupied one the mapping
    closure runs on the payload and the default closure is not called.
    [map_or(def, f)] is [map_or_else] with a closure that only returns
    [def], and, for a result type other than the marker, it is
    [map(f)] followed by [unwrap_or(def)]. *)
Theorem Option_map_or_family {TY : Types} (St : Type) (T U : ty)
    (o : Option T) (def : val U) (df : unit -> eff St (val U))
    (f : val T -> eff St (val U)) (s : St) :
  (Option.is_none o = true ->
     Option.map_or o def f s = (Returned def, s)
     /\ Option.map_or_else o df f s = df tt s)
  /\ (Option.is_some o = true ->
        exists v, o = Some v
          /\ Option.map_or o def f s = f v s
          /\ Option.map_or_else o df f s = f v s)
  /\ (forall (R : ty) (m : Option monostate) (f' : val R -> eff St (val U)),
        Option.map_or_monostate m def f' s = (Returned def, s)
        /\ Option.map_or_else_monostate m df f' s = df tt s)
  /\ Option.map_or o def f s = Option.map_or_else o (fun _ => ret def) f s
  /\ (U <> monostate ->
        Option.map_or o def f s
        = (o' <- Option.map o f ;; lift (Option.unwrap_or o' def)) s).
Proof.
  split; [| split; [| split; [| split]]].
  - intros H. unfold Option.map_or, Option.map_or_else. rewrite H.
    split; reflexivity.
  - intros H. destruct (is_some_inv _ H) as [_ [v ->]]. exists v.
    unfold Option.map_or, Option.map_or_else.
    rewrite (is_some_not_none _ H). simpl. repeat split.
  - intros R m f'. split; reflexivity.
  - unfold Option.map_or, Option.map_or_else.
    destruct (Option.is_none o); reflexivity.
  - intros HU. unfold Option.map_or, Option.map.
    destruct (Option.is_some o) eqn:H.
    + destruct (is_some_inv _ H) as [_ [v ->]].
      rewrite (is_some_not_none _ H). simpl.
      destruct (f v s) as [[u | e | msg] s']; simpl; try reflexivity.
      unfold Option.unwrap_or, Option.holding, lift.
      now rewrite (is_some_engaged _ HU).
    + rewrite (is_none_of_not_some _ H). simpl.
      unfold Option.unwrap_or, lift. now rewrite empty_is_some.
Qed.

(** [Some("foo").map_or(42, size)] and [None().map_or(42, size)], with the
    length of the text as the mapping; the result type is [int]. *)
Lemma Option_map_or_family_witness :
  Option.map_or (U := t_int) (Some (T := t_std_string) "foo") 42%Z
    (fun v => ret (Z.of_nat (String.length v))) tt
  = (Returned 3%Z, tt)
  /\ Option.map_or (U := t_int) (None (T := t_std_string)) 42%Z
       (fun v => ret (Z.of_nat (String.length v))) tt
     = (Returned 42%Z, tt).
Proof.
  destruct (Option_map_or_family (TY := test_types) unit t_std_string t_int
              (@Some test_types t_std_string "foo") 42%Z (fun _ => ret 42%Z)
              (fun v => ret (Z.of_nat (String.length v))) tt)
    as (_ & Hs & _).
  destruct (Option_map_or_family (TY := test_types) unit t_std_string t_int
              (@None test_types t_std_string) 42%Z (fun _ => ret 42%Z)
              (fun v => ret (Z.of_nat (String.length v))) tt)
    as (Hn & _).
  destruct (Hs eq_refl) as (v & Hv & Hm & _). injection Hv as <-.
  split; [exact Hm | exact (proj1 (Hn eq_refl))].
Defined.

(** X10.  [and_then] is the bind of Option: on [Some(x)] of a type other
    than the marker it is the closure applied to [x]; with the closure
    that wraps its argument in [Some] it returns the receiver; two
    [and_then] in a row are one [and_then] with the composed closure, for
    every payload type; and [map(f)] is [and_then] with the closure that
    wraps what [f] returns. *)
Theorem Option_and_then_laws {TY : Types} (St : Type) (T U W : ty)
    (o : Option T) (f : val T -> eff St (val U))
    (g : val T -> eff St (Option U)) (h : val U -> eff St (Option W))
    (s : St) :
  (T <> monostate -> forall x : val T, Option.and_then (Some x) g s = g x s)
  /\ (T <> monostate ->
        Option.and_then o (fun v => ret (Some v)) s = (Returned o, s))
  /\ (o' <- Option.and_then o g ;; Option.and_then o' h) s
     = Option.and_then o (fun x => o' <- g x ;; Option.and_then o' h) s
  /\ Option.map o f s
     = Option.and_then o (fun v => u <- f v ;; ret (Some u)) s.
Proof.
  split; [| split; [| split]].
  - intros HT x. unfold Option.and_then, Option.is_none, Some, Option.holding.
    now rewrite (is_some_engaged x HT).
  - intros HT. unfold Option.and_then, Option.is_none.
    destruct o as [| v].
    + pose proof (@empty_is_some _ T) as He. unfold Option.empty in He.
      now rewrite He.
    + now rewrite (is_some_engaged v HT).
  - unfold Option.and_then at 1 3.
    destruct (Option.is_none o) eqn:H; simpl.
    + pose proof (@empty_is_some _ U) as He. unfold Option.empty in He.
      unfold Option.and_then, Option.is_none.
      now rewrite ?(@empty_is_some _ U), ?He.
    + destruct o as [| x]; reflexivity.
  - unfold Option.map, Option.and_then.
    destruct (Option.is_none o); [reflexivity |].
    destruct o as [| x]; reflexivity.
Qed.

(** [Some(2).and_then(sq)] with [sq] the closure that squares into a
    [Some]. *)
Lemma Option_and_then_laws_witness :
  Option.and_then (U := t_int) (Some (T := t_int) 2%Z)
    (fun x => ret (Some (T := t_int) (x * x)%Z)) tt
  = (Returned (Some (T := t_int) 4%Z), tt)
  /\ Option.and_then (Some (T := t_int) 2%Z)
       (fun v => ret (Some (T := t_int) v)) tt
     = (Returned (Some (T := t_int) 2%Z), tt).
Proof.
  assert (Hint : t_int <> @monostate test_types) by (intros H; discriminate H).
  destruct (Option_and_then_laws (TY := test_types) unit t_int t_int t_int
              (@Some test_types t_int 2%Z) (fun x => ret x)
              (fun x => ret (@Some test_types t_int (x * x)%Z))
              (fun x => ret (@Some test_types t_int x)) tt)
    as (Hleft & Hright & _).
  split; [exact (Hleft Hint 2%Z) | exact (Hright Hint)].
Defined.

(** X11.  Two [map] in a row are one [map] with the composed closure when
    the type in the middle is not the untyped marker.  When it is the
    marker the first [map] yields an Option that is never occupied, so the
    composite is empty and the second closure is not called, whatever the
    first one returned. *)
Theorem Option_map_fusion {TY : Types} (St : Type) (T U W : ty)
    (o : Option T) (f : val T -> eff St (val U))
    (g : val U -> eff St (val W)) (f' : val T -> eff St (val monostate))
    (g' : val monostate -> eff St (val W)) (s : St) :
  (U <> monostate ->
     (o' <- Option.map o f ;; Option.map o' g) s
     = Option.map o (fun v => u <- f v ;; g u) s)
  /\ (Option.is_some o = true ->
        exists x : val T, o = Some x
          /\ forall (u : val monostate) (s' : St),
               f' x s = (Returned u, s') ->
               (o' <- Option.map o f' ;; Option.map o' g') s
               = (Returned None, s')).
Proof.
  split.
  - intros HU. unfold Option.map at 1 3.
    destruct (Option.is_none o) eqn:H; simpl.
    + pose proof (@empty_is_some _ U) as He. unfold Option.empty in He.
      unfold Option.map, Option.is_none.
      now rewrite ?(@empty_is_some _ U), ?He.
    + destruct o as [| x]; simpl; [reflexivity |].
      destruct (f x s) as [[u | e | msg] s']; simpl; try reflexivity.
      unfold Option.map, Option.is_none, Option.holding.
      rewrite (is_some_engaged u HU). simpl.
      destruct (g u s') as [[w | e | msg] s'']; reflexivity.
  - intros H. destruct (is_some_inv _ H) as [_ [x ->]]. exists x.
    split; [reflexivity |]. intros u s' Hf. unfold Option.map at 1.
    rewrite (is_some_not_none _ H). simpl. rewrite Hf. simpl.
    unfold Option.map, Option.is_none. now rewrite marker_is_some.
Qed.

(** [Some(2).map(f).map(g)] with [f] into [std::monostate]: empty, and the
    variable that [g] would set to 7 still holds what [f] left there. *)
Lemma Option_map_fusion_witness :
  (o' <- Option.map (U := t_monostate) (Some (T := t_int) 2%Z)
           (fun _ (_ : Z) => (Returned tt, 1%Z)) ;;
   Option.map (U := t_int) o' (fun _ (_ : Z) => (Returned 5%Z, 7%Z))) 0%Z
  = (Returned None, 1%Z).
Proof.
  destruct (Option_map_fusion (TY := test_types) Z t_int t_int t_int
              (@Some test_types t_int 2%Z) (fun x => ret x) (fun x => ret x)
              (fun _ (_ : Z) => (Returned tt, 1%Z))
              (fun _ (_ : Z) => (Returned 5%Z, 7%Z)) 0%Z) as [_ Hmarker].
  destruct (Hmarker eq_refl) as (x & Hx & Hcomp). injection Hx as <-.
  exact (Hcomp tt 1%Z eq_refl).
Defined.

(* ===================================================================== *)
(** ** Equality, continued *)
(* ===================================================================== *)

Lemma cxx_comparable_sym (T U : cxx_type) :
  cxx_comparable T U = cxx_comparable U T.
Proof. destruct T, U; reflexivity. Qed.

Lemma cxx_eq_sym (T U : cxx_type) (x : cxx_val T) (y : cxx_val U) :
  cxx_eq T U x y = cxx_eq U T y x.
Proof.
  destruct T, U; simpl; try reflexivity;
    first [apply Z.eqb_sym | apply String.eqb_sym].
Qed.

(** X12.  Equality of Options does not depend on the side an operand is
    written on, whichever overload is selected, provided the payloads'
    own comparison does not: [equality_comparable_with] is symmetric in
    its two types and the payloads' [==] gives the same answer with its
    operands exchanged. *)
Theorem Option_equality_symmetric {TY : Types}
    (comparable_sym : forall T U : ty,
        equality_comparable_with T U = equality_comparable_with U T)
    (payload_sym : forall (T U : ty) (x : val T) (y : val U),
        payload_eq T U x y = payload_eq U T y x)
    (T U : ty) (a : Option T) (b : Option U) :
  Option.operator_eq a b = Option.operator_eq b a.
Proof.
  destruct (Option.is_some a) eqn:Ha; destruct (Option.is_some b) eqn:Hb.
  - destruct (operator_eq_some_some a b Ha Hb) as (x & y & Hx & Hy & ->).
    destruct (operator_eq_some_some b a Hb Ha) as (y' & x' & Hy' & Hx' & ->).
    subst a b. injection Hx' as <-. injection Hy' as <-.
    now rewrite comparable_sym, payload_sym.
  - rewrite (operator_eq_some_none a b Ha (is_none_of_not_some _ Hb)).
    now rewrite (operator_eq_none_some b a (is_none_of_not_some _ Hb) Ha).
  - rewrite (operator_eq_none_some a b (is_none_of_not_some _ Ha) Hb).
    now rewrite (operator_eq_some_none b a Hb (is_none_of_not_some _ Ha)).
  - rewrite (operator_eq_none_none a b (is_none_of_not_some _ Ha)
               (is_none_of_not_some _ Hb)).
    now rewrite (operator_eq_none_none b a (is_none_of_not_some _ Hb)
                   (is_none_of_not_some _ Ha)).
Qed.

(** [Some(std::string("4")) == Some("4")] and [Some("4") == Some(std::string("4"))]. *)
Lemma Option_equality_symmetric_witness :
  Option.operator_eq (Some (T := t_std_string) "4")
    (Some (T := t_const_char_ptr) "4")
  = Option.operator_eq (Some (T := t_const_char_ptr) "4")
      (Some (T := t_std_string) "4").
Proof.
  exact (Option_equality_symmetric (TY := test_types) cxx_comparable_sym
           cxx_eq_sym t_std_string t_const_char_ptr
           (@Some test_types t_std_string "4")
           (@Some test_types t_const_char_ptr "4")).
Defined.

(** X13.  Equality of two Results always returns: an Ok and an Err are
    unequal in either order, whatever they hold, two Ok compare as their
    values do and two Err as their errors do; [std::get] is never used on
    the wrong alternative. *)
Theorem Result_equality {TY : Types} (T E : ty) (r1 r2 : Result T E) :
  (exists b, Result.operator_eq r1 r2 = Returned b)
  /\ (Result.is_ok r1 <> Result.is_ok r2 ->
      Result.operator_eq r1 r2 = Returned false)
  /\ (forall v1 v2 : val T, r1 = Ok v1 -> r2 = Ok v2 ->
        Result.operator_eq r1 r2 = Returned (payload_eq T T v1 v2))
  /\ (forall e1 e2 : val E, r1 = Err e1 -> r2 = Err e2 ->
        Result.operator_eq r1 r2 = Returned (payload_eq E E e1 e2)).
Proof.
  split; [| split; [| split]].
  - destruct r1 as [v1 | e1], r2 as [v2 | e2]; unfold Result.operator_eq;
      simpl; try (eexists; reflexivity).
    destruct (payload_eq T T v1 v2); eexists; reflexivity.
  - destruct r1 as [v1 | e1], r2 as [v2 | e2]; simpl; intros H;
      try (now destruct H); reflexivity.
  - intros v1 v2 -> ->. unfold Result.operator_eq. simpl.
    destruct (payload_eq T T v1 v2); reflexivity.
  - intros e1 e2 -> ->. reflexivity.
Qed.

(** [Err<int, const char *>("foo") != Ok<int, const char *>(13)] and
    [Ok(13) == Ok(13)]. *)
Lemma Result_equality_witness :
  Result.operator_eq (@Err test_types t_int t_const_char_ptr "foo")
    (@Ok test_types t_int t_const_char_ptr 13%Z) = Returned false
  /\ Result.operator_eq (@Ok test_types t_int t_const_char_ptr 13%Z)
       (@Ok test_types t_int t_const_char_ptr 13%Z) = Returned true.
Proof.
  split.
  - apply (Result_equality (TY := test_types) t_int t_const_char_ptr).
    intros H. discriminate H.
  - exact (proj1 (proj2 (proj2 (Result_equality (TY := test_types) t_int
                                   t_const_char_ptr
                                   (@Ok test_types t_int t_const_char_ptr 13%Z)
                                   (@Ok test_types t_int t_const_char_ptr 13%Z))))
             13%Z 13%Z eq_refl eq_refl).
Defined.

(* ===================================================================== *)
(** ** The combinators of a Result *)
(* ===================================================================== *)

(** X14.  [and_then] on a Result: an Err is handed on with its error and
    the closure is not called; an Ok gives the closure applied to the
    value; with the closure that wraps its argument in [Ok] the receiver
    comes back; two [and_then] in a row are one with the composed closure;
    and [and_b(res)] is [and_then] with a closure that only returns
    [res]. *)
Theorem Result_and_then_laws {TY : Types} (St : Type) (T E U W : ty)
    (r : Result T E) (res : Result U E)
    (op : val T -> eff St (Result U E))
    (op' : val U -> eff St (Result W E)) (s : St) :
  (forall e : val E,
     Result.and_then (@Err _ T E e) op s = (Returned (Err e), s)
     /\ Result.and_b (@Err _ T E e) res = Returned (Err e))
  /\ (forall v : val T,
        Result.and_then (@Ok _ T E v) op s = op v s
        /\ Result.and_b (@Ok _ T E v) res = Returned res)
  /\ Result.and_then r (fun v => ret (Ok v)) s = (Returned r, s)
  /\ (r' <- Result.and_then r op ;; Result.and_then r' op') s
     = Result.and_then r (fun v => r' <- op v ;; Result.and_then r' op') s
  /\ Result.and_then r (fun _ => ret res) s = lift (Result.and_b r res) s.
Proof.
  split; [| split; [| split; [| split]]].
  - intros e. split; reflexivity.
  - intros v. split; reflexivity.
  - destruct r; reflexivity.
  - destruct r; reflexivity.
  - destruct r; reflexivity.
Qed.

(** X15.  [or_else] on a Result: an Ok is handed on with its value and
    the closure is not called; an Err gives the closure applied to the
    error; with the closure that wraps its argument in [Err] the receiver
    comes back; two [or_else] in a row are one with the composed closure;
    and [or_b(res)] is [or_else] with a closure that only returns [res]. *)
Theorem Result_or_else_laws {TY : Types} (St : Type) (T E F G : ty)
    (r : Result T E) (res : Result T F)
    (op : val E -> eff St (Result T F))
    (op' : val F -> eff St (Result T G)) (s : St) :
  (forall v : val T,
     Result.or_else (@Ok _ T E v) op s = (Returned (Ok v), s)
     /\ Result.or_b (@Ok _ T E v) res = Returned (Ok v))
  /\ (forall e : val E,
        Result.or_else (@Err _ T E e) op s = op e s
        /\ Result.or_b (@Err _ T E e) res = Returned res)
  /\ Result.or_else r (fun e => ret (Err e)) s = (Returned r, s)
  /\ (r' <- Result.or_else r op ;; Result.or_else r' op') s
     = Result.or_else r (fun e => r' <- op e ;; Result.or_else r' op') s
  /\ Result.or_else r (fun _ => ret res) s = lift (Result.or_b r res) s.
Proof.
  split; [| split; [| split; [| split]]].
  - intros v. split; reflexivity.
  - intros e. split; reflexivity.
  - destruct r; reflexivity.
  - destruct r; reflexivity.
  - destruct r; reflexivity.
Qed.

(** X16.  The defaults of a Result: [unwrap_or], [unwrap_or_default] and
    [unwrap_or_else] return the Ok value, and otherwise the given default,
    the value-initialized [T{}], and the closure applied to the error;
    [map_or] and [map_or_else] run the mapping closure on an Ok value and
    otherwise return the default or run the error closure on the error.
    In each case the closure of the other arm is not called, and all this
    holds for every choice of types, the result type equal to the error
    type included.  Where [map] compiles, that is for a result type
    distinct from the error type, [map_or_else(d, f)] is [map(f)]
    followed by [unwrap_or_else(d)]. *)
Theorem Result_defaults {TY : Types} (St : Type) (T E U : ty)
    (D : DefaultInitializable T)
    (def : val T) (def' : val U) (op : val E -> eff St (val T))
    (d : val E -> eff St (val U)) (f : val T -> eff St (val U))
    (r : Result T E) (s : St) :
  (forall v : val T,
     Result.unwrap_or (@Ok _ T E v) def = Returned v
     /\ Result.unwrap_or_default (@Ok _ T E v) = Returned v
     /\ Result.unwrap_or_else (@Ok _ T E v) op s = (Returned v, s)
     /\ Result.map_or (@Ok _ T E v) def' f s = f v s
     /\ Result.map_or_else (@Ok _ T E v) d f s = f v s)
  /\ (forall e : val E,
        Result.unwrap_or (@Err _ T E e) def = Returned def
        /\ Result.unwrap_or_default (@Err _ T E e)
           = Returned value_initialized
        /\ Result.unwrap_or_else (@Err _ T E e) op s = op e s
        /\ Result.map_or (@Err _ T E e) def' f s = (Returned def', s)
        /\ Result.map_or_else (@Err _ T E e) d f s = d e s)
  /\ (forall distinct : is_same U E = false,
        Result.map_or_else r d f s
        = (r' <- Result.map distinct r f ;; Result.unwrap_or_else r' d) s).
Proof.
  split; [| split].
  - intros v. repeat split.
  - intros e. repeat split.
  - intros distinct. destruct r as [v | e]; [| reflexivity].
    unfold Result.map_or_else, Result.map. simpl.
    destruct (f v s) as [[u | e | msg] s']; reflexivity.
Qed.

(** [Err<int, int>(17).unwrap_or(42)], [Err<int, int>(17).unwrap_or_default()],
    [Ok<int, int>(1).unwrap_or(42)], [Err<int, int>(17).map_or(42, f)] with
    the result type equal to the error type, and [map_or_else] against
    [map] then [unwrap_or_else] with the mapping into [std::string]. *)
Lemma Result_defaults_witness :
  Result.unwrap_or (@Err test_types t_int t_int 17%Z) 42%Z = Returned 42%Z
  /\ Result.unwrap_or_default (T := t_int) (@Err test_types t_int t_int 17%Z)
     = Returned 0%Z
  /\ Result.unwrap_or (@Ok test_types t_int t_int 1%Z) 42%Z = Returned 1%Z
  /\ Result.map_or (U := t_int) (@Err test_types t_int t_int 17%Z) 42%Z
       (fun x => ret (x + 1)%Z) tt
     = (Returned 42%Z, tt)
  /\ Result.map_or_else (U := t_std_string)
       (@Ok test_types t_int t_int 1%Z) stringify stringify tt
     = (r' <- Result.map (E := t_int) (U := t_std_string) eq_refl
                (@Ok test_types t_int t_int 1%Z) stringify ;;
        Result.unwrap_or_else r' stringify) tt.
Proof.
  destruct (Result_defaults (TY := test_types) unit t_int t_int t_std_string
              DefaultInitializable_int 42%Z EmptyString
              (fun _ => ret 42%Z) stringify stringify
              (@Ok test_types t_int t_int 1%Z) tt) as (Hok & Herr & Hmap).
  destruct (Result_defaults (TY := test_types) unit t_int t_int t_int
              DefaultInitializable_int 42%Z 42%Z
              (fun _ => ret 42%Z) (fun x => ret x) (fun x => ret (x + 1)%Z)
              (@Ok test_types t_int t_int 1%Z) tt) as (_ & Hsame & _).
  destruct (Herr 17%Z) as (H1 & H2 & _).
  destruct (Hok 1%Z) as (H3 & _).
  destruct (Hsame 17%Z) as (_ & _ & _ & H4 & _).
  split; [exact H1 | split; [exact H2 | split; [exact H3 | split]]].
  - exact H4.
  - exact (Hmap eq_refl).
Defined.

(** X17.  [map] and [map_err] on a Result compose: two [map] in a row are
    one [map] with the composed closure, two [map_err] likewise, and a
    [map] and a [map_err] give the same Result and leave the same state in
    either order, since only one of the two closures runs.  The result
    types of [map] differ from the error type next to them, as they do
    wherever [map] compiles. *)
Theorem Result_map_composition {TY : Types} (St : Type) (T E U W F G : ty)
    (dUE : is_same U E = false) (dWE : is_same W E = false)
    (dUF : is_same U F = false)
    (f : val T -> eff St (val U)) (g : val U -> eff St (val W))
    (op : val E -> eff St (val F)) (op' : val F -> eff St (val G))
    (r : Result T E) (s : St) :
  (r' <- Result.map dUE r f ;; Result.map dWE r' g) s
  = Result.map dWE r (fun v => u <- f v ;; g u) s
  /\ (r' <- Result.map_err r op ;; Result.map_err r' op') s
     = Result.map_err r (fun e => x <- op e ;; op' x) s
  /\ (r' <- Result.map dUE r f ;; Result.map_err r' op) s
     = (r' <- Result.map_err r op ;; Result.map dUF r' f) s.
Proof.
  split; [| split].
  - destruct r as [v | e]; [| reflexivity].
    unfold Result.map. simpl.
    destruct (f v s) as [[u | e | msg] s']; simpl; try reflexivity;
      destruct (g u s') as [[w | e | msg] s'']; reflexivity.
  - destruct r as [v | e]; [reflexivity |].
    unfold Result.map_err. simpl.
    destruct (op e s) as [[x | e' | msg] s']; simpl; try reflexivity;
      destruct (op' x s') as [[y | e' | msg] s'']; reflexivity.
  - destruct r as [v | e].
    + unfold Result.map, Result.map_err. simpl.
      destruct (f v s) as [[u | e | msg] s']; reflexivity.
    + unfold Result.map, Result.map_err. simpl.
      destruct (op e s) as [[x | e' | msg] s']; reflexivity.
Qed.

(** [Err<int, int>(13).map(f).map_err(stringify)] and
    [Err<int, int>(13).map_err(stringify).map(f)], with [f] into
    [const char *]. *)
Lemma Result_map_composition_witness :
  (r' <- Result.map (E := t_int) (U := t_const_char_ptr) eq_refl
           (@Err test_types t_int t_int 13%Z) (fun _ => ret "ok") ;;
   Result.map_err (F := t_std_string) r' stringify) tt
  = (r' <- Result.map_err (F := t_std_string)
             (@Err test_types t_int t_int 13%Z) stringify ;;
     Result.map (E := t_std_string) (U := t_const_char_ptr) eq_refl r'
       (fun _ => ret "ok")) tt.
Proof.
  exact (proj2 (proj2 (Result_map_composition (TY := test_types) unit t_int
                         t_int t_const_char_ptr t_const_char_ptr
                         t_std_string t_std_string eq_refl eq_refl eq_refl
                         (fun _ => ret "ok") (fun x => ret x) stringify
                         (fun x => ret x)
                         (@Err test_types t_int t_int 13%Z) tt))).
Defined.

(** X18.  Converting to an Option commutes with mapping when the mapped
    side is not of the marker type: [r.map(f).ok()] is [r.ok().map(f)]
    for a success type other than the marker, and [r.map_err(op).err()]
    is [r.err().map(op)] for an error type other than the marker; in both
    the closure runs under the same condition and leaves the same
    state. *)
Theorem Result_Option_conversions_commute {TY : Types} (St : Type)
    (T E U F : ty) (distinct : is_same U E = false)
    (f : val T -> eff St (val U)) (op : val E -> eff St (val F))
    (r : Result T E) (s : St) :
  (T <> monostate ->
     (r' <- Result.map distinct r f ;; lift (Result.ok r')) s
     = (o <- lift (Result.ok r) ;; Option.map o f) s)
  /\ (E <> monostate ->
        (r' <- Result.map_err r op ;; lift (Result.err r')) s
        = (o <- lift (Result.err r) ;; Option.map o op) s).
Proof.
  split.
  - intros HT. destruct r as [v | e].
    + unfold Result.map, Result.ok, Option.map, Option.is_none. simpl.
      unfold Option.holding. rewrite (is_some_engaged v HT). simpl.
      destruct (f v s) as [[u | e | msg] s']; reflexivity.
    + pose proof (@empty_is_some _ T) as He. unfold Option.empty in He.
      unfold Result.map, Result.ok, Option.map, Option.is_none. simpl.
      now rewrite ?(@empty_is_some _ T), ?He.
  - intros HE. destruct r as [v | e].
    + pose proof (@empty_is_some _ E) as He. unfold Option.empty in He.
      unfold Result.map_err, Result.err, Option.map, Option.is_none. simpl.
      now rewrite ?(@empty_is_some _ E), ?He.
    + unfold Result.map_err, Result.err, Option.map, Option.is_none. simpl.
      unfold Option.holding. rewrite (is_some_engaged e HE). simpl.
      destruct (op e s) as [[x | e' | msg] s']; reflexivity.
Qed.

(** [Ok<int, int>(2).map(f).ok()] and [Ok<int, int>(2).ok().map(f)] with
    [f] the closure of the [map_err] example. *)
Lemma Result_Option_conversions_commute_witness :
  (r' <- Result.map (E := t_int) (U := t_std_string) eq_refl
           (@Ok test_types t_int t_int 2%Z) stringify ;;
   lift (Result.ok r')) tt
  = (o <- lift (Result.ok (@Ok test_types t_int t_int 2%Z)) ;;
     Option.map (U := t_std_string) o stringify) tt.
Proof.
  assert (Hint : t_int <> @monostate test_types) by (intros H; discriminate H).
  exact (proj1 (Result_Option_conversions_commute (TY := test_types) unit
                  t_int t_int t_std_string t_std_string eq_refl stringify
                  stringify (@Ok test_types t_int t_int 2%Z) tt) Hint).
Defined.

(** X19.  [is_ok_and] does not call its predicate on an Err and
    [is_err_and] does not call it on an Ok; on the matching state each is
    what the predicate returns for the payload.  For a payload type other
    than the marker, [r.is_ok_and(p)] is [r.ok().is_some_and(p)] and
    [r.is_err_and(q)] is [r.err().is_some_and(q)]. *)
Theorem Result_is_ok_and_is_err_and {TY : Types} (St : Type) (T E : ty)
    (p : val T -> eff St bool) (q : val E -> eff St bool)
    (r : Result T E) (s : St) :
  (forall v : val T,
     Result.is_ok_and (@Ok _ T E v) p s = p v s
     /\ Result.is_err_and (@Ok _ T E v) q s = (Returned false, s))
  /\ (forall e : val E,
        Result.is_ok_and (@Err _ T E e) p s = (Returned false, s)
        /\ Result.is_err_and (@Err _ T E e) q s = q e s)
  /\ (T <> monostate ->
        Result.is_ok_and r p s
        = (o <- lift (Result.ok r) ;; Option.is_some_and o p) s)
  /\ (E <> monostate ->
        Result.is_err_and r q s
        = (o <- lift (Result.err r) ;; Option.is_some_and o q) s).
Proof.
  split; [| split; [| split]].
  - intros v. split; reflexivity.
  - intros e. split; reflexivity.
  - intros HT. destruct r as [v | e].
    + unfold Result.is_ok_and, Result.ok, Option.is_some_and. simpl.
      unfold Option.holding. now rewrite (is_some_engaged v HT).
    + pose proof (@empty_is_some _ T) as He. unfold Option.empty in He.
      unfold Result.is_ok_and, Result.ok, Option.is_some_and. simpl.
      now rewrite ?(@empty_is_some _ T), ?He.
  - intros HE. destruct r as [v | e].
    + pose proof (@empty_is_some _ E) as He. unfold Option.empty in He.
      unfold Result.is_err_and, Result.err, Option.is_some_and. simpl.
      now rewrite ?(@empty_is_some _ E), ?He.
    + unfold Result.is_err_and, Result.err, Option.is_some_and. simpl.
      unfold Option.holding. now rewrite (is_some_engaged e HE).
Qed.

(** [Ok<int, int>(2).is_ok_and(x == 2)] against
    [Ok<int, int>(2).ok().is_some_and(x == 2)]. *)
Lemma Result_is_ok_and_is_err_and_witness :
  Result.is_ok_and (@Ok test_types t_int t_int 2%Z)
    (fun x => ret (x =? 2)%Z) tt
  = (o <- lift (Result.ok (@Ok test_types t_int t_int 2%Z)) ;;
     Option.is_some_and o (fun x => ret (x =? 2)%Z)) tt.
Proof.
  assert (Hint : t_int <> @monostate test_types) by (intros H; discriminate H).
  exact (proj1 (proj2 (proj2 (Result_is_ok_and_is_err_and (TY := test_types)
                                unit t_int t_int (fun x => ret (x =? 2)%Z)
                                (fun x => ret (x =? 2)%Z)
                                (@Ok test_types t_int t_int 2%Z) tt))) Hint).
Defined.

(** X20.  [ok_or] and [ok_or_else] always return, and the Result is Ok
    exactly when the Option reports a value, for every payload type, the
    marker included.  [ok_or_else] does not call its closure on an
    occupied Option, and with a closure that only returns [err] it is
    [ok_or(err)].  [T] and [E] are distinct types, as they are wherever
    the two compile. *)
Theorem Option_ok_or_discriminant {TY : Types} (St : Type) (T E : ty)
    (distinct : is_same T E = false) (o : Option T) (err : val E)
    (f : unit -> eff St (val E)) (s : St) :
  (exists r : Result T E,
     Option.ok_or distinct o err = Returned r
     /\ Result.is_ok r = Option.is_some o
     /\ Result.is_err r = Option.is_none o)
  /\ (Option.is_some o = true ->
        exists v, o = Some v
          /\ Option.ok_or_else distinct o f s = (Returned (Ok v), s))
  /\ Option.ok_or_else distinct o (fun _ => ret err) s
     = lift (Option.ok_or distinct o err) s.
Proof.
  split; [| split].
  - unfold Option.ok_or, Option.is_none.
    destruct (Option.is_some o) eqn:H.
    + destruct (is_some_inv _ H) as [_ [v ->]]. simpl.
      eexists. repeat split.
    + simpl. eexists. repeat split.
  - intros H. destruct (is_some_inv _ H) as [_ [v ->]]. exists v.
    split; [reflexivity |].
    unfold Option.ok_or_else. now rewrite (is_some_not_none _ H).
  - unfold Option.ok_or_else, Option.ok_or.
    destruct (Option.is_none o); [reflexivity |].
    destruct o; reflexivity.
Qed.

(** [Some("foo").ok_or_else(f)] with [f] a closure that would write 7 into
    the captured variable. *)
Lemma Option_ok_or_discriminant_witness :
  Option.ok_or_else (T := t_const_char_ptr) (E := t_int) eq_refl
    (Some (T := t_const_char_ptr) "foo") (fun _ (_ : Z) => (Returned 0%Z, 7%Z))
    1%Z
  = (Returned (@Ok test_types t_const_char_ptr t_int "foo"), 1%Z).
Proof.
  destruct (Option_ok_or_discriminant (TY := test_types) Z t_const_char_ptr
              t_int eq_refl (@Some test_types t_const_char_ptr "foo") 0%Z
              (fun _ (_ : Z) => (Returned 0%Z, 7%Z)) 1%Z) as (_ & Hs & _).
  destruct (Hs eq_refl) as (v & Hv & Hr). injection Hv as <-. exact Hr.
Defined.
